(** * node-zint: the JavaScript wrapper around the native barcode encoder

    A shallow embedding of [src/index.js].  The wrapper merges default
    options into the caller's symbol struct, forwards eighteen arguments
    to the native binding, turns the binding's result record into a
    resolved or rejected promise and, for PNG output, paints the returned
    RGB bitmap into an image.

    Modelling choices
    - a JavaScript object is a finite map from property names to values
      ([gmap string _]); a property read of a missing key gives
      [undefined].  The struct holds primitives only, so an own property
      named [hasOwnProperty] shadows the inherited method with something
      that cannot be called;
    - the caller's symbol struct is mutated in place by the wrapper, so
      every function that touches it returns the struct as it is left;
    - numbers are the integer-valued doubles, as [Z], together with
      [NaN]; an addition rounds its exact result to the nearest double;
      strings are ASCII;
    - the compiled binding, the enumeration modules under [./enums], the
      PNG packer and the file system are collaborators of [index.js];
      they are parameters ([binding], [storage]) and the general
      statements quantify over them;
    - a promise is modelled by the state it ends in; [Pending] is a
      promise that never settles. *)

From Stdlib Require Import ZArith Ascii String List Lia.
From stdpp Require Import base option list strings pretty gmap.

Open Scope string_scope.
Open Scope Z_scope.

(** ** JavaScript values and the built-ins the wrapper uses *)

Module JS.

Inductive number : Type :=
  | Int (z : Z)
  | NaN.

(** Primitive values: what the documented Symbol struct holds. *)
Inductive value : Type :=
  | VUndef
  | VNull
  | VBool (b : bool)
  | VNum (n : number)
  | VStr (s : string).

(** A property of a result object: a primitive, or an array-like of
    primitives (the encoded bytes). *)
Inductive jsval : Type :=
  | Prim (v : value)
  | Arr (l : list value).

Inductive error : Type :=
  | Error (msg : string)
  | TypeError (msg : string).

(** Completion of a synchronous call. *)
Inductive compl (A : Type) : Type :=
  | Normal (a : A)
  | Throw (e : error).
Arguments Normal {A} a.
Arguments Throw {A} e.

(** [o.k] *)
Definition get (o : gmap string value) (k : string) : value :=
  default VUndef (o !! k).

(** [o.hasOwnProperty(k)] *)
Definition hasOwnProperty (o : gmap string value) (k : string) : bool :=
  bool_decide (is_Some (o !! k)).

(** [a[i]] on an array-like *)
Definition index (a : list value) (i : nat) : value :=
  default VUndef (a !! i).

(** ToBoolean *)
Definition truthy (v : value) : bool :=
  match v with
  | VUndef | VNull => false
  | VBool b => b
  | VNum (Int z) => negb (z =? 0)
  | VNum NaN => false
  | VStr s => negb (String.eqb s "")
  end.

(** [a || b] *)
Definition or (a b : value) : value := if truthy a then a else b.

(** ToString.  Integers print in decimal digits; the exponent notation
    JavaScript switches to from 10^21 on is left out (it does not change
    the sign of what [parseInt] reads, which is all the wrapper tests). *)
Definition ToString (v : value) : string :=
  match v with
  | VUndef => "undefined"
  | VNull => "null"
  | VBool true => "true"
  | VBool false => "false"
  | VNum (Int z) => pretty z
  | VNum NaN => "NaN"
  | VStr s => s
  end.

(** ToNumber of a value that is not a string (strings never reach the
    numeric branch of [+]). *)
Definition ToNumber_nonstring (v : value) : number :=
  match v with
  | VUndef => NaN
  | VNull => Int 0
  | VBool b => Int (if b then 1 else 0)
  | VNum n => n
  | VStr _ => NaN
  end.

(** The double nearest to the integer [z], ties to the even significand:
    integers of magnitude below 2^53 are doubles; above, the bits
    beyond the 53 leading ones are rounded away.  (Magnitudes of 2^1024
    and more, which a double cannot hold, do not arise from the
    wrapper's only addition, of 8.) *)
Definition round_double (z : Z) : Z :=
  let m := Z.abs z in
  if m <? 2 ^ 53 then z
  else
    let e := Z.log2 m - 52 in
    let q := Z.shiftr m e in
    let r := m - Z.shiftl q e in
    let half := Z.shiftl 1 (e - 1) in
    let q' := if ((half <? r) || ((r =? half) && Z.odd q))%bool then q + 1 else q in
    Z.sgn z * Z.shiftl q' e.

(** Addition of two numbers. *)
Definition num_add (a b : number) : number :=
  match a, b with
  | Int x, Int y => Int (round_double (x + y))
  | _, _ => NaN
  end.

(** [a + b]: concatenation as soon as one side is a string, numeric
    addition otherwise. *)
Definition add (a b : value) : value :=
  match a, b with
  | VStr s, _ => VStr (s +:+ ToString b)
  | _, VStr t => VStr (ToString a +:+ t)
  | _, _ => VNum (num_add (ToNumber_nonstring a) (ToNumber_nonstring b))
  end.

(** [n > 0] *)
Definition gt0 (n : number) : bool :=
  match n with
  | Int z => 0 <? z
  | NaN => false
  end.

(** White space skipped by [parseInt] (the ASCII part). *)
Definition is_ws (c : ascii) : bool :=
  let n := nat_of_ascii c in
  (Nat.eqb n 32 || (Nat.leb 9 n && Nat.leb n 13))%bool.

Fixpoint skip_ws (s : string) : string :=
  match s with
  | EmptyString => EmptyString
  | String c r => if is_ws c then skip_ws r else s
  end.

Definition digit_of (c : ascii) : option Z :=
  let n := Z.of_nat (nat_of_ascii c) in
  if ((48 <=? n) && (n <=? 57))%bool then Some (n - 48) else None.

(** Longest prefix of decimal digits; [None] when there is none. *)
Fixpoint read_digits (acc : option Z) (s : string) : option Z :=
  match s with
  | EmptyString => acc
  | String c r =>
      match digit_of c with
      | Some d => read_digits (Some (10 * default 0 acc + d)) r
      | None => acc
      end
  end.

(** [parseInt(s, 10)] on a string: leading white space, an optional
    sign, then the longest run of decimal digits. *)
Definition parseInt_string (s : string) : number :=
  let t := skip_ws s in
  let '(sign, u) :=
    match t with
    | String c r =>
        if Ascii.eqb c "-" then (-1, r)
        else if Ascii.eqb c "+" then (1, r)
        else (1, t)
    | EmptyString => (1, t)
    end in
  match read_digits None u with
  | Some n => Int (sign * n)
  | None => NaN
  end.

(** [parseInt(v, 10)]: the argument is first turned into a string. *)
Definition parseInt (v : value) : number :=
  parseInt_string (ToString v).

(** [s.replace(/\.png$/g, '.bmp')]: the only possible match is the
    suffix of [s]. *)
Fixpoint replace_png_suffix (s : string) : string :=
  match s with
  | EmptyString => EmptyString
  | String c r => if String.eqb s ".png" then ".bmp" else String c (replace_png_suffix r)
  end.


(** The elements [s[0]], [s[1]], ... of a string: one-character strings. *)
Fixpoint chars (s : string) : list value :=
  match s with
  | EmptyString => []
  | String c r => VStr (String c EmptyString) :: chars r
  end.

(** What [d[i]] reads on the value [d]: the elements of an array, the
    characters of a string, nothing on a number or a boolean (every
    index is [undefined]); [None] for [undefined] and [null], on which
    an index read throws. *)
Definition indexed (d : jsval) : option (list value) :=
  match d with
  | Arr l => Some l
  | Prim (VStr s) => Some (chars s)
  | Prim (VBool _) | Prim (VNum _) => Some []
  | Prim VUndef | Prim VNull => None
  end.

End JS.
Import JS.

(** ** The image collaborator ([pngjs-image])

    Only [createImage] and [setAt] are used by the wrapper.  An image is
    its dimensions and the colour objects written so far, by position. *)

Module PNGImage.

Record color : Type := Color {
  red : value;
  green : value;
  blue : value;
  alpha : value
}.

Record image : Type := Image {
  img_width : nat;
  img_height : nat;
  pixels : gmap (nat * nat) color
}.

Definition createImage (width height : nat) : image :=
  {| img_width := width; img_height := height; pixels := ∅ |}.

Definition setAt (img : image) (x y : nat) (c : color) : image :=
  {| img_width := img_width img;
     img_height := img_height img;
     pixels := <[(x, y) := c]> (pixels img) |}.

Definition getAt (img : image) (x y : nat) : option color :=
  pixels img !! (x, y).

End PNGImage.
Import PNGImage.

(** ** The native binding and the enumerations *)

(** The eighteen positional arguments of the native call, in order. *)
Record native_args : Type := NativeArgs {
  a_barcodeData : value;
  a_symbology : value;
  a_height : value;
  a_whitespaceWidth : value;
  a_borderWidth : value;
  a_outputOptions : value;
  a_backgroundColor : value;
  a_foregroundColor : value;
  a_fileName : string;
  a_scale : value;
  a_option1 : value;
  a_option2 : value;
  a_option3 : value;
  a_showHumanReadableText : Z;
  a_text : value;
  a_encoding : value;
  a_eci : value;
  a_primary : value
}.

(** The record the native call returns.  [encodedData] is an array of
    bytes (the bitmap) or a string (the SVG or EPS text). *)
Record native_result : Type := NativeResult {
  encodedData : jsval;
  message : value;
  code : Z;
  width : nat;
  height : nat
}.

(** What [index.js] requires: [symbology] is the compiled binding,
    called by method name; [Encoding_DATA_MODE] is
    [exp.Encoding.DATA_MODE]; [Output_values] is
    [Object.values(exp.Output)] and [Output_PNG] is [exp.Output.PNG];
    [pack_base64] is the base64 text of the chunks the packed PNG
    stream of an image emits before its [end] event, [None] when the
    stream never emits [end]. *)
Record binding : Type := Binding {
  symbology : string -> native_args -> native_result;
  Encoding_DATA_MODE : value;
  Output_values : list string;
  Output_PNG : string;
  pack_base64 : image -> option string
}.

(** ** The wrapper *)

(** A call that may mutate the caller's symbol struct and may invoke
    the native binding: the struct as it is left, the native calls made
    (oldest first) and how the call completed. *)
Record exec (A : Type) : Type := Exec {
  symbol_after : gmap string value;
  native_calls : list native_args;
  completion : compl A
}.
Arguments Exec {A} _ _ _.
Arguments symbol_after {A} _.
Arguments native_calls {A} _.
Arguments completion {A} _.

(** The state the returned promise ends in. *)
Inductive promise : Type :=
  | Resolved (o : gmap string jsval)
  | Rejected (o : gmap string jsval)
  | RejectedWith (e : error)
  | Pending.

(** [defaultSymbol], in the order of its keys. *)
Definition defaultSymbol (E : binding) : list (string * value) :=
  [ ("symbology", VNum (Int 20));
    ("height", VNum (Int 50));
    ("whitespaceWidth", VNum (Int 0));
    ("borderWidth", VNum (Int 0));
    ("outputOptions", VNum (Int (-1)));
    ("foregroundColor", VStr "000000");
    ("backgroundColor", VStr "ffffff");
    ("fileName", VStr "out.bmp");
    ("scale", VNum (Int 1));
    ("option1", VNum (Int (-1)));
    ("option2", VNum (Int (-1)));
    ("option3", VNum (Int (-1)));
    ("showHumanReadableText", VBool true);
    ("encoding", Encoding_DATA_MODE E);
    ("eci", VNum (Int 0));
    ("primary", VStr "") ].

(** The body of the loop of [validateSymbol], once [hasOwnProperty] has
    been found to be the inherited method. *)
Definition validate_key (symbologyStruct : gmap string value) (kv : string * value)
  : gmap string value :=
  if negb (hasOwnProperty symbologyStruct kv.1)
  then <[kv.1 := kv.2]> symbologyStruct
  else symbologyStruct.

(** The struct [validateSymbol] leaves when nothing shadows
    [hasOwnProperty]. *)
Definition validateSymbol_fill (E : binding) (symbologyStruct : gmap string value)
  : gmap string value :=
  fold_left validate_key (defaultSymbol E) symbologyStruct.

Definition not_a_function (what : string) : error :=
  TypeError (what +:+ " is not a function").

(** One turn of the loop of [validateSymbol]:
    [symbologyStruct.hasOwnProperty(...)] is a method call, and an own
    property of that name is what gets called; a primitive cannot be. *)
Definition validate_turn (st : gmap string value * compl unit) (kv : string * value)
  : gmap string value * compl unit :=
  match st.2 with
  | Throw _ => st
  | Normal _ =>
      match st.1 !! "hasOwnProperty" with
      | Some _ => (st.1, Throw (not_a_function "symbologyStruct.hasOwnProperty"))
      | None => (validate_key st.1 kv, Normal tt)
      end
  end.

(** [validateSymbol]: returns nothing; the result here is the argument
    as the loop leaves it, and whether the loop threw. *)
Definition validateSymbol (E : binding) (symbologyStruct : gmap string value)
  : gmap string value * compl unit :=
  fold_left validate_turn (defaultSymbol E) (symbologyStruct, Normal tt).

(** The argument list [createSymbology] passes to the native function,
    read off the validated struct; [fileName] is the string held by its
    [fileName] property. *)
Definition createSymbology_args (symbologyStruct : gmap string value)
    (barcodeData : value) (fileName : string) : native_args :=
  {| a_barcodeData := barcodeData;
     a_symbology := get symbologyStruct "symbology";
     a_height := get symbologyStruct "height";
     a_whitespaceWidth := get symbologyStruct "whitespaceWidth";
     a_borderWidth := get symbologyStruct "borderWidth";
     a_outputOptions := get symbologyStruct "outputOptions";
     a_backgroundColor := get symbologyStruct "backgroundColor";
     a_foregroundColor := get symbologyStruct "foregroundColor";
     a_fileName := replace_png_suffix fileName;
     a_scale := get symbologyStruct "scale";
     a_option1 := get symbologyStruct "option1";
     a_option2 := get symbologyStruct "option2";
     a_option3 := get symbologyStruct "option3";
     a_showHumanReadableText :=
       if truthy (get symbologyStruct "showHumanReadableText") then 1 else 0;
     a_text := JS.or (get symbologyStruct "text") barcodeData;
     a_encoding := get symbologyStruct "encoding";
     a_eci := get symbologyStruct "eci";
     a_primary := get symbologyStruct "primary" |}.

(** [createSymbology].  An error of [validateSymbol] passes through.
    [symbologyStruct.fileName.replace(...)] throws a TypeError unless
    [fileName] is a string, before the native function is reached: on
    [undefined] and [null] already the read of [replace] fails, on a
    number or a boolean [replace] is [undefined] and cannot be called. *)
Definition createSymbology (E : binding) (symbologyStruct : gmap string value)
    (barcodeData : value) (fnName : string) : exec native_result :=
  let validated := validateSymbol E symbologyStruct in
  let symbologyStruct := validated.1 in
  match validated.2 with
  | Throw e => Exec symbologyStruct [] (Throw e)
  | Normal _ =>
      match get symbologyStruct "fileName" with
      | VStr fileName =>
          let args := createSymbology_args symbologyStruct barcodeData fileName in
          Exec symbologyStruct [args] (Normal (symbology E fnName args))
      | VUndef =>
          Exec symbologyStruct []
            (Throw (TypeError "Cannot read properties of undefined (reading 'replace')"))
      | VNull =>
          Exec symbologyStruct []
            (Throw (TypeError "Cannot read properties of null (reading 'replace')"))
      | VBool _ | VNum _ =>
          Exec symbologyStruct []
            (Throw (not_a_function "symbologyStruct.fileName.replace"))
      end
  end.

(** The two nested loops of [pngRender]: the state is the image and the
    running index [i]. *)
Definition pngRender_pixel (bitmap : list value) (y : nat) (st : image * nat) (x : nat)
  : image * nat :=
  let '(image, i) := st in
  (setAt image x y
     {| red := index bitmap i;
        green := index bitmap (i + 1);
        blue := index bitmap (i + 2);
        alpha := VNum (Int 200) |},
   (i + 3)%nat).

Definition pngRender_row (bitmap : list value) (width : nat) (st : image * nat) (y : nat)
  : image * nat :=
  fold_left (pngRender_pixel bitmap y) (seq 0 width) st.

Definition pngRender_loop (bitmap : list value) (width height : nat) : image * nat :=
  fold_left (pngRender_row bitmap width) (seq 0 height) (createImage width height, 0%nat).

(** [pngRender] *)
Definition pngRender (bitmap : list value) (width height : nat) : image :=
  (pngRender_loop bitmap width height).1.

(** [blobToBase64Png]: the promise resolves in the handler of the
    stream's [end] event, with the header followed by the base64 text of
    the chunks; [None] is the promise that stays pending because [end]
    never comes. *)
Definition blobToBase64Png (E : binding) (image : image) : option string :=
  match pack_base64 E image with
  | Some chunks => Some ("data:image/png;base64," +:+ chunks)
  | None => None
  end.

(** [o.k] on a result object *)
Definition field (o : gmap string jsval) (k : string) : jsval :=
  default (Prim VUndef) (o !! k).

(** The block of [callManagedLibrary] that rewrites the symbol struct
    when the output type is not PNG. *)
Definition callManagedLibrary_output (E : binding) (symbol : gmap string value)
    (outputType : string) : gmap string value :=
  if negb (String.eqb outputType (Output_PNG E)) then
    let symbol := <["fileName" := VStr ("out." +:+ outputType)]> symbol in
    if gt0 (parseInt (get symbol "outputOptions"))
    then <["outputOptions" := add (get symbol "outputOptions") (VNum (Int 8))]> symbol
    else <["outputOptions" := VNum (Int 8)]> symbol
  else symbol.

(** The promise [callManagedLibrary] returns for a native result. *)
Definition callManagedLibrary_settle (res : native_result) : promise :=
  if code res <=? 2 then
    Resolved
      (<["data" := encodedData res]>
         (<["message" := Prim (message res)]>
            (<["code" := Prim (VNum (Int (code res)))]>
               (<["width" := Prim (VNum (Int (Z.of_nat (width res))))]>
                  (<["height" := Prim (VNum (Int (Z.of_nat (height res))))]> ∅)))))
  else
    Rejected
      (<["message" := Prim (message res)]>
         (<["code" := Prim (VNum (Int (code res)))]> ∅)).

(** [callManagedLibrary].  [isStdout] is accepted and never read. *)
Definition callManagedLibrary (E : binding) (symbol : gmap string value)
    (barcodeData : value) (outputType : string) (isStdout : value) : exec promise :=
  if negb (bool_decide (outputType ∈ Output_values E)) then
    Exec symbol [] (Throw (Error ("Invalid output type: " +:+ outputType)))
  else
    let symbol := callManagedLibrary_output E symbol outputType in
    let r := createSymbology E symbol barcodeData "createStream" in
    match completion r with
    | Throw e => Exec (symbol_after r) (native_calls r) (Throw e)
    | Normal res =>
        Exec (symbol_after r) (native_calls r) (Normal (callManagedLibrary_settle res))
    end.

(** [pngRender(res.data, res.width, res.height)] inside a promise
    handler: [res.data[i]] is read for every channel, so a [data] that
    is [undefined] or [null] makes the handler throw at the first read,
    as soon as there is a pixel to paint. *)
Definition pngRender_data (data : jsval) (width height : nat) : compl image :=
  match indexed data with
  | Some bitmap => Normal (pngRender bitmap width height)
  | None =>
      if Nat.eqb (width * height) 0 then Normal (pngRender [] width height)
      else
        Throw (TypeError
                 (match data with
                  | Prim VNull => "Cannot read properties of null (reading '0')"
                  | _ => "Cannot read properties of undefined (reading '0')"
                  end))
  end.

(** The fulfilment handler of [exp.createStream].  [res] is the object
    [callManagedLibrary] resolved with, whose [width] and [height] are
    numbers (no other shape reaches the handler); a handler that throws
    rejects the promise. *)
Definition createStream_then (E : binding) (outputType : string)
    (res : gmap string jsval) : promise :=
  if String.eqb outputType (Output_PNG E) then
    match field res "width", field res "height" with
    | Prim (VNum (Int w)), Prim (VNum (Int h)) =>
        match pngRender_data (field res "data") (Z.to_nat w) (Z.to_nat h) with
        | Normal pngData =>
            match blobToBase64Png E pngData with
            | Some base64Data =>
                Resolved
                  (<["data" := Prim (VStr base64Data)]>
                     (<["width" := field res "width"]>
                        (<["height" := field res "height"]>
                           (<["message" := field res "message"]>
                              (<["code" := field res "code"]> ∅)))))
            | None => Pending
            end
        | Throw e => RejectedWith e
        end
    | _, _ => RejectedWith (TypeError "width and height are not numbers")
    end
  else Resolved res.

(** [exp.createStream]: [outputType] defaults to [exp.Output.PNG] when
    the caller leaves it out.  A rejection passes through [.then]
    untouched, a synchronous throw leaves [createStream] as it is. *)
Definition createStream (E : binding) (symbol : gmap string value)
    (barcodeData : value) (outputType : option string) : exec promise :=
  let outputType := default (Output_PNG E) outputType in
  let r := callManagedLibrary E symbol barcodeData outputType (VBool true) in
  match completion r with
  | Normal (Resolved res) =>
      Exec (symbol_after r) (native_calls r) (Normal (createStream_then E outputType res))
  | _ => r
  end.

(** Two calls in a row on the same symbol object: the second sees the
    object as the first left it. *)
Definition callManagedLibrary_twice (E : binding) (symbol : gmap string value)
    (barcodeData : value) (outputType : string) : exec promise * exec promise :=
  let r1 := callManagedLibrary E symbol barcodeData outputType VUndef in
  let r2 := callManagedLibrary E (symbol_after r1) barcodeData outputType VUndef in
  (r1, r2).

Definition createStream_twice (E : binding) (symbol : gmap string value)
    (barcodeData : value) (outputType : option string) : exec promise * exec promise :=
  let r1 := createStream E symbol barcodeData outputType in
  let r2 := createStream E (symbol_after r1) barcodeData outputType in
  (r1, r2).

(** ** [exp.createFile] *)

(** An ASCII letter: what [[a-z]] matches under the [i] flag. *)
Definition is_letter (c : ascii) : bool :=
  let n := nat_of_ascii c in
  ((Nat.leb 65 n && Nat.leb n 90) || (Nat.leb 97 n && Nat.leb n 122))%bool.

Fixpoint all_letters (s : string) : bool :=
  match s with
  | EmptyString => true
  | String c r => (is_letter c && all_letters r)%bool
  end.

(** [s.match(/\.([a-z]+)$/i).pop()]: the match is tried at every
    position from the left; at a dot followed by a non-empty run of
    letters that reaches the end of [s] it succeeds and the captured
    run is the last element of the match array.  [None] is the [null]
    of a failed match. *)
Fixpoint match_extension (s : string) : option string :=
  match s with
  | EmptyString => None
  | String c r =>
      if (Ascii.eqb c "." && negb (String.eqb r "") && all_letters r)%bool
      then Some r
      else match_extension r
  end.

Definition lower_ascii (c : ascii) : ascii :=
  let n := nat_of_ascii c in
  if (Nat.leb 65 n && Nat.leb n 90)%bool then ascii_of_nat (n + 32) else c.

(** [s.toLowerCase()] *)
Fixpoint toLowerCase (s : string) : string :=
  match s with
  | EmptyString => EmptyString
  | String c r => String (lower_ascii c) (toLowerCase r)
  end.

(** The [try] block of [exp.createFile]: [None] when anything in it
    throws ([fileName] missing or not a string, so that [match] is not
    callable, or no match, so that [pop] is called on [null]). *)
Definition createFile_outputType (symbol : gmap string value) : option string :=
  match symbol !! "fileName" with
  | Some (VStr fileName) => toLowerCase <$> match_extension fileName
  | _ => None
  end.

(** ** Concrete collaborators, for running the wrapper on examples

    The enumeration has the three output types the doc comments of
    [index.js] name.  The encoder stand-in accepts every non-empty data
    string, with a 2x1 bitmap when it is given a [.bmp] file name and
    with SVG text otherwise, and refuses anything else with code 6.  The
    packer stand-in never ends on an image without pixels. *)

Definition demo_symbology (fnName : string) (args : native_args) : native_result :=
  if truthy (a_barcodeData args) then
    match match_extension (a_fileName args) with
    | Some "bmp" =>
        {| encodedData :=
             Arr [ VNum (Int 0); VNum (Int 0); VNum (Int 0);
                   VNum (Int 255); VNum (Int 255); VNum (Int 255) ];
           message := VStr "";
           code := 0;
           width := 2;
           height := 1 |}
    | _ =>
        {| encodedData := Prim (VStr "<svg/>");
           message := VStr "";
           code := 0;
           width := 2;
           height := 1 |}
    end
  else
    {| encodedData := Prim VUndef;
       message := VStr "No input data";
       code := 6;
       width := 0;
       height := 0 |}.

Definition demo_pack (img : image) : option string :=
  if Nat.eqb (img_width img * img_height img) 0 then None else Some "iVBORw0KGgo=".

Definition demo : binding :=
  {| symbology := demo_symbology;
     Encoding_DATA_MODE := VNum (Int 0);
     Output_values := ["png"; "eps"; "svg"];
     Output_PNG := "png";
     pack_base64 := demo_pack |}.

(** An encoder stand-in that accepts with an image of no pixels. *)
Definition demo_blank : binding :=
  {| symbology := fun _ _ =>
       {| encodedData := Arr []; message := VStr ""; code := 0; width := 0; height := 0 |};
     Encoding_DATA_MODE := VNum (Int 0);
     Output_values := ["png"; "eps"; "svg"];
     Output_PNG := "png";
     pack_base64 := demo_pack |}.

(** ** Vocabulary of the statements *)

(** [defaultSymbol[k]] *)
Fixpoint assoc (k : string) (l : list (string * value)) : option value :=
  match l with
  | [] => None
  | (k', v) :: r => if String.eqb k' k then Some v else assoc k r
  end.

(** The keys of [defaultSymbol]. *)
Definition defaultSymbol_keys (E : binding) : list string :=
  map fst (defaultSymbol E).

(** [fileName] is absent or a string: [createSymbology] does not throw. *)
Definition fileName_usable (symbol : gmap string value) : bool :=
  match symbol !! "fileName" with
  | None | Some (VStr _) => true
  | Some _ => false
  end.

(** The colour object [pngRender] builds when the running index is [i]. *)
Definition color_at (bitmap : list value) (i : nat) : color :=
  {| red := index bitmap i;
     green := index bitmap (i + 1);
     blue := index bitmap (i + 2);
     alpha := VNum (Int 200) |}.

(** The property names of the two objects [callManagedLibrary] settles
    its promise with. *)
Definition resolved_keys : gset string :=
  {[ "data"; "message"; "code"; "width"; "height" ]}.

Definition rejected_keys : gset string :=
  {[ "message"; "code" ]}.

(** [o] carries the output data [d] together with the message, code,
    width and height of [res], and nothing else. *)
Definition carries_output (o : gmap string jsval) (res : native_result) (d : jsval) : Prop :=
  dom o = resolved_keys /\
  o !! "data" = Some d /\
  o !! "message" = Some (Prim (message res)) /\
  o !! "code" = Some (Prim (VNum (Int (code res)))) /\
  o !! "width" = Some (Prim (VNum (Int (Z.of_nat (width res))))) /\
  o !! "height" = Some (Prim (VNum (Int (Z.of_nat (height res))))).

(** [o] carries the message and code of [res] only; it has no [data]. *)
Definition carries_error (o : gmap string jsval) (res : native_result) : Prop :=
  dom o = rejected_keys /\
  o !! "data" = None /\
  o !! "message" = Some (Prim (message res)) /\
  o !! "code" = Some (Prim (VNum (Int (code res)))).

(** ** [exp.createFile]: the files *)

(** What has been written under a path: an image through
    [image.writeImage], or raw data through [fs.writeFileSync]. *)
Inductive written : Type :=
  | WImage (img : image)
  | WData (d : jsval).

(** The file system, seen from [exp.createFile].  [writeFileSync path
    data] is the error [fs.writeFileSync] throws, [None] when the file
    is written.  [writeImage image path] is how [image.writeImage]
    ends: [None] when its callback is never called, [Some (Some err)]
    when it is called with an error, [Some None] when it is called
    after the file has been written. *)
Record storage : Type := Storage {
  writeFileSync : value -> jsval -> option error;
  writeImage : image -> value -> option (option error)
}.

(** A run of [exp.createFile]: as [exec], with the files written. *)
Record file_exec : Type := FileExec {
  f_symbol_after : gmap string value;
  f_native_calls : list native_args;
  f_writes : list (value * written);
  f_completion : compl promise
}.

Definition createFile_error : error :=
  Error "Invalid file extension. fileName must end with '.png', '.eps', or '.svg'.".

(** The fulfilment handler of [exp.createFile].  [symbol] is the struct
    as [callManagedLibrary] left it.  A throw in the handler, and an
    error of [writeImage], reject the promise. *)
Definition createFile_then (E : binding) (fs : storage)
    (symbol : gmap string value) (outputType : string) (res : gmap string jsval)
  : list (value * written) * promise :=
  if String.eqb outputType (Output_PNG E) then
    match field res "width", field res "height" with
    | Prim (VNum (Int w)), Prim (VNum (Int h)) =>
        match pngRender_data (field res "data") (Z.to_nat w) (Z.to_nat h) with
        | Normal image =>
            match writeImage fs image (get symbol "fileName") with
            | None => ([], Pending)
            | Some (Some err) => ([], RejectedWith err)
            | Some None =>
                ([(get symbol "fileName", WImage image)], Resolved (delete "data" res))
            end
        | Throw e => ([], RejectedWith e)
        end
    | _, _ => ([], RejectedWith (TypeError "width and height are not numbers"))
    end
  else
    match writeFileSync fs (get symbol "fileName") (field res "data") with
    | Some err => ([], RejectedWith err)
    | None =>
        ([(get symbol "fileName", WData (field res "data"))], Resolved (delete "data" res))
    end.

(** [exp.createFile] *)
Definition createFile (E : binding) (fs : storage)
    (symbol : gmap string value) (barcodeData : value) : file_exec :=
  match createFile_outputType symbol with
  | None => FileExec symbol [] [] (Throw createFile_error)
  | Some outputType =>
      let r := callManagedLibrary E symbol barcodeData outputType VUndef in
      match completion r with
      | Normal (Resolved res) =>
          let wp := createFile_then E fs (symbol_after r) outputType res in
          FileExec (symbol_after r) (native_calls r) wp.1 (Normal wp.2)
      | c => FileExec (symbol_after r) (native_calls r) [] c
      end
  end.

(** The write [w] went through. *)
Definition write_succeeds (fs : storage) (w : value * written) : Prop :=
  match w.2 with
  | WData d => writeFileSync fs w.1 d = None
  | WImage img => writeImage fs img w.1 = Some None
  end.

(** The caller's own property [k], or [d] when the struct has none. *)
Definition own_or (symbol : gmap string value) (k : string) (d : value) : value :=
  match symbol !! k with
  | Some v => v
  | None => d
  end.

(** [o] is what [exp.createFile] resolves with: message, code, width
    and height of [res], the [data] deleted. *)
Definition carries_summary (o : gmap string jsval) (res : native_result) : Prop :=
  dom o = ({[ "message"; "code"; "width"; "height" ]} : gset string) /\
  o !! "data" = None /\
  o !! "message" = Some (Prim (message res)) /\
  o !! "code" = Some (Prim (VNum (Int (code res)))) /\
  o !! "width" = Some (Prim (VNum (Int (Z.of_nat (width res))))) /\
  o !! "height" = Some (Prim (VNum (Int (Z.of_nat (height res))))).

(** A file system that writes strings and refuses anything else, as
    [fs.writeFileSync] refuses a plain array, and on which
    [image.writeImage] always succeeds. *)
Definition demo_fs : storage :=
  {| writeFileSync := fun path data =>
       match path, data with
       | VStr _, Prim (VStr _) => None
       | _, _ => Some (TypeError "The data argument must be of type string")
       end;
     writeImage := fun _ _ => Some None |}.

(** The struct after [k] calls in a row on the same symbol object. *)
Fixpoint callManagedLibrary_after (E : binding) (k : nat) (symbol : gmap string value)
    (barcodeData : value) (outputType : string) : gmap string value :=
  match k with
  | O => symbol
  | S k' =>
      symbol_after
        (callManagedLibrary E
           (callManagedLibrary_after E k' symbol barcodeData outputType)
           barcodeData outputType VUndef)
  end.

(** ** Evaluation on examples *)

Example js_builtins_examples :
  parseInt (VStr "  42px") = Int 42 /\ parseInt (VStr "-7") = Int (-7) /\
  parseInt (VStr "px") = NaN /\ parseInt VUndef = NaN /\
  add (VNum (Int 4)) (VNum (Int 8)) = VNum (Int 12) /\
  add (VStr "4") (VNum (Int 8)) = VStr "48" /\
  replace_png_suffix "a.png.png" = "a.png.bmp" /\
  replace_png_suffix "out.svg" = "out.svg".
Proof. vm_compute. repeat split. Qed.

(** Above 2^53 a sum is rounded: 2^53 - 1 + 8 is 2^53 + 8. *)
Example add_rounds_to_double :
  add (VNum (Int 9007199254740991)) (VNum (Int 8)) = VNum (Int 9007199254741000) /\
  add (VNum (Int 9007199254740992)) (VNum (Int 1)) = VNum (Int 9007199254740992).
Proof. vm_compute. repeat split. Qed.

Example validateSymbol_empty_height :
  (validateSymbol demo ∅).1 !! "height" = Some (VNum (Int 50)).
Proof. vm_compute. reflexivity. Qed.

(** [+=] on a string concatenates: outputOptions "4" goes out as "48". *)
Example outputOptions_string_svg :
  map a_outputOptions
    (native_calls
       (callManagedLibrary demo (<["outputOptions" := VStr "4"]> ∅)
          (VStr "HELLO") "svg" VUndef)) = [VStr "48"].
Proof. vm_compute. reflexivity. Qed.

(** A PNG request keeps the caller's file name, with [.png] turned
    into [.bmp]. *)
Example fileName_png_to_bmp :
  map a_fileName
    (native_calls
       (callManagedLibrary demo (<["fileName" := VStr "code.png"]> ∅)
          (VStr "HELLO") "png" VUndef)) = ["code.bmp"].
Proof. vm_compute. reflexivity. Qed.

(** ** [parseInt] reads back what ToString prints *)

Section ParseInt.

Lemma pretty_N_char_digit d :
  (d < 10)%N -> digit_of (pretty_N_char d) = Some (Z.of_N d).
Proof.
  intros Hd. destruct d as [|p]; [reflexivity|].
  do 4 (destruct p as [p|p|]; try reflexivity; try lia).
Qed.

Lemma pretty_N_char_plain d :
  is_ws (pretty_N_char d) = false /\
  Ascii.eqb (pretty_N_char d) "-" = false /\
  Ascii.eqb (pretty_N_char d) "+" = false.
Proof. unfold pretty_N_char. repeat case_match; repeat split. Qed.

(** Reading the numeral of [x] shifts the accumulator by its number of
    digits and adds [x]. *)
Lemma read_digits_pretty_N_go (x : N) :
  exists k : Z, 0 <= k /\ forall s acc,
    (0 < x)%N ->
    read_digits acc (pretty_N_go x s) =
    read_digits (Some (default 0 acc * 10 ^ k + Z.of_N x)) s.
Proof.
  induction (N.lt_wf_0 x) as [x _ IH].
  destruct (N.eq_dec x 0%N) as [->|Hx].
  { exists 0. split; [lia|]. intros; lia. }
  assert (Hpos : (0 < x)%N) by lia.
  assert (Hr : (x `mod` 10 < 10)%N) by (apply N.mod_lt; lia).
  assert (Hx10 : Z.of_N x = 10 * Z.of_N (x `div` 10) + Z.of_N (x `mod` 10)).
  { pose proof (N.div_mod x 10%N ltac:(lia)). lia. }
  destruct (N.eq_dec (x `div` 10)%N 0%N) as [Hq|Hq].
  - exists 1. split; [lia|]. intros s acc _.
    rewrite pretty_N_go_step by exact Hpos. rewrite Hq, pretty_N_go_0.
    cbn [read_digits]. rewrite (pretty_N_char_digit _ Hr).
    f_equal. f_equal. rewrite Hx10, Hq. lia.
  - destruct (IH (x `div` 10)%N) as (k & Hk & IHk).
    { apply N.div_lt; lia. }
    exists (k + 1). split; [lia|]. intros s acc _.
    rewrite pretty_N_go_step by exact Hpos.
    rewrite IHk by lia. cbn [read_digits]. rewrite (pretty_N_char_digit _ Hr).
    f_equal. f_equal. cbn [default from_option id].
    rewrite Z.pow_add_r by lia. rewrite Hx10. lia.
Qed.

Lemma pretty_N_go_head (x : N) s :
  (0 < x)%N -> exists d r, pretty_N_go x s = String (pretty_N_char d) r.
Proof.
  revert s. induction (N.lt_wf_0 x) as [x _ IH]. intros s Hpos.
  rewrite pretty_N_go_step by exact Hpos.
  destruct (N.eq_dec (x `div` 10)%N 0%N) as [Hq|Hq].
  - rewrite Hq, pretty_N_go_0. eauto.
  - assert (Hlt : (x `div` 10 < x)%N) by (apply N.div_lt; lia).
    assert (Hq' : (0 < x `div` 10)%N) by (apply N.neq_0_lt_0; exact Hq).
    exact (IH _ Hlt _ Hq').
Qed.

Lemma parseInt_string_pretty_pos (p : positive) :
  parseInt_string (pretty_N_go (N.pos p) "") = Int (Z.pos p).
Proof.
  destruct (pretty_N_go_head (N.pos p) "") as (d & r & Hhead); [lia|].
  destruct (pretty_N_char_plain d) as (Hws & Hminus & Hplus).
  unfold parseInt_string. rewrite Hhead. cbn [skip_ws]. rewrite Hws, Hminus, Hplus.
  rewrite <- Hhead.
  destruct (read_digits_pretty_N_go (N.pos p)) as (k & _ & Hk).
  rewrite Hk by lia. cbn [read_digits default from_option id]. f_equal.
Qed.

Lemma parseInt_string_pretty (z : Z) : parseInt_string (pretty z) = Int z.
Proof.
  destruct z as [|p|p].
  - reflexivity.
  - apply parseInt_string_pretty_pos.
  - change (pretty (Z.neg p)) with (String "-" (pretty_N_go (N.pos p) "")).
    unfold parseInt_string. cbn [skip_ws]. change (is_ws "-") with false. cbv iota.
    change (Ascii.eqb "-" "-") with true. cbv iota.
    destruct (read_digits_pretty_N_go (N.pos p)) as (k & _ & Hk).
    rewrite Hk by lia. cbn [read_digits default from_option id]. f_equal.
Qed.

(** [parseInt] of a number is the number. *)
Lemma parseInt_number (n : number) : parseInt (VNum n) = n.
Proof.
  destruct n as [z|]; [|reflexivity].
  apply parseInt_string_pretty.
Qed.

Lemma parseInt_not_numeric :
  parseInt VUndef = NaN /\ parseInt VNull = NaN /\
  parseInt (VBool true) = NaN /\ parseInt (VBool false) = NaN.
Proof. repeat split. Qed.

End ParseInt.

(** ** [validateSymbol] *)

Section Validate.

Context (E : binding).

Lemma hasOwnProperty_true (o : gmap string value) k :
  hasOwnProperty o k = true <-> is_Some (o !! k).
Proof. unfold hasOwnProperty. apply bool_decide_eq_true. Qed.

Lemma hasOwnProperty_false (o : gmap string value) k :
  hasOwnProperty o k = false <-> o !! k = None.
Proof.
  unfold hasOwnProperty. rewrite bool_decide_eq_false.
  rewrite eq_None_not_Some. reflexivity.
Qed.

(** One turn of the loop writes [kv] only where the key is missing. *)
Lemma validate_key_lookup (o : gmap string value) kv k :
  validate_key o kv !! k =
  match o !! k with
  | Some v => Some v
  | None => if String.eqb kv.1 k then Some kv.2 else None
  end.
Proof.
  destruct kv as [k' v']. unfold validate_key. cbn [fst snd].
  destruct (hasOwnProperty o k') eqn:Hown; cbn [negb].
  - apply hasOwnProperty_true in Hown as [w Hw].
    destruct (o !! k) as [v|] eqn:Hk; [reflexivity|].
    destruct (String.eqb_spec k' k) as [->|]; [congruence | reflexivity].
  - apply hasOwnProperty_false in Hown.
    destruct (String.eqb_spec k' k) as [<-|Hne].
    + rewrite lookup_insert_eq, Hown. reflexivity.
    + rewrite lookup_insert_ne by exact Hne. destruct (o !! k); reflexivity.
Qed.

Lemma fold_validate_key_lookup l (o : gmap string value) k :
  fold_left validate_key l o !! k =
  match o !! k with
  | Some v => Some v
  | None => assoc k l
  end.
Proof.
  revert o. induction l as [|[k' v'] l IH]; intros o; simpl.
  - destruct (o !! k); reflexivity.
  - rewrite IH, validate_key_lookup. simpl.
    destruct (o !! k); [reflexivity|].
    destruct (String.eqb k' k); reflexivity.
Qed.

(** What [validateSymbol] leaves under each key. *)
Lemma validateSymbol_lookup (o : gmap string value) k :
  validateSymbol_fill E o !! k =
  match o !! k with
  | Some v => Some v
  | None => assoc k (defaultSymbol E)
  end.
Proof. apply fold_validate_key_lookup. Qed.

Lemma validateSymbol_present (o : gmap string value) k v :
  o !! k = Some v -> validateSymbol_fill E o !! k = Some v.
Proof. intros H. rewrite validateSymbol_lookup, H. reflexivity. Qed.

Lemma assoc_Some_keys k l v : assoc k l = Some v -> In k (map fst l).
Proof.
  induction l as [|[k' v'] l IH]; simpl; [discriminate|].
  destruct (String.eqb_spec k' k); [auto | intros; right; auto].
Qed.

Lemma assoc_keys_Some k l : In k (map fst l) -> is_Some (assoc k l).
Proof.
  induction l as [|[k' v'] l IH]; simpl; [tauto|].
  destruct (String.eqb_spec k' k) as [|Hne]; [eauto|].
  intros [?|?]; [contradiction | auto].
Qed.

Lemma validateSymbol_idem (o : gmap string value) :
  validateSymbol_fill E (validateSymbol_fill E o) = validateSymbol_fill E o.
Proof.
  apply map_eq. intros k. rewrite validateSymbol_lookup.
  destruct (validateSymbol_fill E o !! k) as [v|] eqn:Hk; [reflexivity|].
  rewrite validateSymbol_lookup in Hk.
  destruct (o !! k); [discriminate | exact Hk].
Qed.

Lemma validateSymbol_get_present (o : gmap string value) k :
  is_Some (o !! k) -> get (validateSymbol_fill E o) k = get o k.
Proof.
  intros [v Hv]. unfold get. rewrite (validateSymbol_present _ _ _ Hv), Hv.
  reflexivity.
Qed.

Lemma validate_turn_thrown l (s : gmap string value) e :
  fold_left validate_turn l (s, Throw e) = (s, Throw e).
Proof. induction l as [|kv l IH]; [reflexivity | exact IH]. Qed.

Lemma validate_turn_free l (s : gmap string value) :
  Forall (fun kv : string * value => kv.1 <> "hasOwnProperty") l ->
  s !! "hasOwnProperty" = None ->
  fold_left validate_turn l (s, Normal tt) = (fold_left validate_key l s, Normal tt).
Proof.
  intros Hl. revert s. induction Hl as [|kv l Hkv _ IH]; intros s Hs; [reflexivity|].
  cbn [fold_left]. unfold validate_turn at 2. cbn [fst snd]. rewrite Hs.
  apply IH. rewrite validate_key_lookup, Hs.
  destruct (String.eqb_spec kv.1 "hasOwnProperty"); [contradiction | reflexivity].
Qed.

Lemma validate_turn_shadowed l (s : gmap string value) v :
  l <> [] -> s !! "hasOwnProperty" = Some v ->
  fold_left validate_turn l (s, Normal tt) =
  (s, Throw (not_a_function "symbologyStruct.hasOwnProperty")).
Proof.
  intros Hl Hs. destruct l as [|kv l]; [congruence|].
  change (fold_left validate_turn (kv :: l) (s, Normal tt))
    with (fold_left validate_turn l (validate_turn (s, Normal tt) kv)).
  unfold validate_turn at 2. cbn [fst snd]. rewrite Hs.
  apply validate_turn_thrown.
Qed.

Lemma defaultSymbol_no_method :
  Forall (fun kv : string * value => kv.1 <> "hasOwnProperty") (defaultSymbol E).
Proof. unfold defaultSymbol. repeat constructor; discriminate. Qed.

(** The loop throws at its first turn or not at all. *)
Lemma validateSymbol_eq (o : gmap string value) :
  validateSymbol E o =
  match o !! "hasOwnProperty" with
  | Some _ => (o, Throw (not_a_function "symbologyStruct.hasOwnProperty"))
  | None => (validateSymbol_fill E o, Normal tt)
  end.
Proof.
  destruct (o !! "hasOwnProperty") as [v|] eqn:Ho.
  - apply (validate_turn_shadowed _ _ v); [|exact Ho].
    unfold defaultSymbol. discriminate.
  - apply validate_turn_free; [apply defaultSymbol_no_method | exact Ho].
Qed.

Lemma validateSymbol_free (o : gmap string value) :
  o !! "hasOwnProperty" = None ->
  validateSymbol E o = (validateSymbol_fill E o, Normal tt).
Proof. intros H. rewrite validateSymbol_eq, H. reflexivity. Qed.

Lemma validateSymbol_shadowed (o : gmap string value) :
  is_Some (o !! "hasOwnProperty") ->
  validateSymbol E o = (o, Throw (not_a_function "symbologyStruct.hasOwnProperty")).
Proof. intros [v H]. rewrite validateSymbol_eq, H. reflexivity. Qed.

Lemma validateSymbol_fill_free (o : gmap string value) :
  validateSymbol_fill E o !! "hasOwnProperty" = o !! "hasOwnProperty".
Proof. rewrite validateSymbol_lookup. destruct (o !! "hasOwnProperty"); reflexivity. Qed.

(** What the struct holds once [validateSymbol] is over, thrown or not. *)
Lemma validateSymbol_struct_lookup (o : gmap string value) k :
  (validateSymbol E o).1 !! k =
  match o !! k with
  | Some v => Some v
  | None =>
      match o !! "hasOwnProperty" with
      | Some _ => None
      | None => assoc k (defaultSymbol E)
      end
  end.
Proof.
  rewrite validateSymbol_eq.
  destruct (o !! "hasOwnProperty") as [m|]; cbn [fst].
  - destruct (o !! k); reflexivity.
  - apply validateSymbol_lookup.
Qed.

Lemma validateSymbol_again (o : gmap string value) :
  validateSymbol E (validateSymbol E o).1 = validateSymbol E o.
Proof.
  destruct (o !! "hasOwnProperty") as [m|] eqn:Ho.
  - rewrite (validateSymbol_shadowed o) by eauto. cbn [fst].
    apply validateSymbol_shadowed. eauto.
  - rewrite (validateSymbol_free o Ho). cbn [fst].
    rewrite validateSymbol_free by (rewrite validateSymbol_fill_free; exact Ho).
    rewrite validateSymbol_idem. reflexivity.
Qed.

(** C9: whatever the struct, a property it already has keeps its
    value, and what [validateSymbol] assigns under a key that was
    absent is that key's [defaultSymbol] value and nothing else; when
    the struct does not shadow [hasOwnProperty], every absent key
    receives exactly its [defaultSymbol] value (none for a key
    [defaultSymbol] lacks).  Hence applying [validateSymbol] to the
    struct it has left gives the same struct and the same outcome. *)
Theorem validateSymbol_keeps_present_and_is_idempotent (symbologyStruct : gmap string value) :
  (forall k v, symbologyStruct !! k = Some v ->
               (validateSymbol E symbologyStruct).1 !! k = Some v) /\
  (forall k v, symbologyStruct !! k = None ->
               (validateSymbol E symbologyStruct).1 !! k = Some v ->
               assoc k (defaultSymbol E) = Some v) /\
  (symbologyStruct !! "hasOwnProperty" = None ->
   forall k, symbologyStruct !! k = None ->
             (validateSymbol E symbologyStruct).1 !! k = assoc k (defaultSymbol E)) /\
  validateSymbol E (validateSymbol E symbologyStruct).1 = validateSymbol E symbologyStruct.
Proof.
  split; [|split; [|split]].
  - intros k v H. rewrite validateSymbol_struct_lookup, H. reflexivity.
  - intros k v H. rewrite validateSymbol_struct_lookup, H.
    destruct (symbologyStruct !! "hasOwnProperty"); [discriminate | tauto].
  - intros Hfree k H. rewrite validateSymbol_struct_lookup, H, Hfree. reflexivity.
  - apply validateSymbol_again.
Qed.

(** C4, as the code has it: [validateSymbol] writes into its argument.
    When an own property shadows [hasOwnProperty] it throws a TypeError
    and writes nothing.  Otherwise it does not throw, and the struct it
    leaves holds every own property of the argument at its value (the
    [defaultSymbol] keys already present included), the [defaultSymbol]
    value under every [defaultSymbol] key that was absent, and nothing
    else; so the argument is left as it was exactly when every key of
    [defaultSymbol] is already an own property. *)
Theorem validateSymbol_mutates_only_missing_defaults (symbologyStruct : gmap string value) :
  (is_Some (symbologyStruct !! "hasOwnProperty") ->
   validateSymbol E symbologyStruct =
   (symbologyStruct, Throw (not_a_function "symbologyStruct.hasOwnProperty"))) /\
  (symbologyStruct !! "hasOwnProperty" = None ->
   (validateSymbol E symbologyStruct).2 = Normal tt /\
   (forall k, (validateSymbol E symbologyStruct).1 !! k =
              match symbologyStruct !! k with
              | Some v => Some v
              | None => assoc k (defaultSymbol E)
              end) /\
   ((validateSymbol E symbologyStruct).1 = symbologyStruct <->
    forall k, In k (defaultSymbol_keys E) -> is_Some (symbologyStruct !! k))).
Proof.
  split; [apply validateSymbol_shadowed|].
  intros Hfree. rewrite (validateSymbol_free _ Hfree). cbn [fst snd].
  split; [reflexivity|]. split; [apply validateSymbol_lookup|].
  split.
  - intros Heq k Hin. rewrite <- Heq, validateSymbol_lookup.
    destruct (symbologyStruct !! k); [eauto|].
    apply assoc_keys_Some. exact Hin.
  - intros Hall. apply map_eq. intros k. rewrite validateSymbol_lookup.
    destruct (symbologyStruct !! k) as [v|] eqn:Hk; [reflexivity|].
    destruct (assoc k (defaultSymbol E)) as [d|] eqn:Hd; [|reflexivity].
    apply assoc_Some_keys, Hall in Hd. rewrite Hk in Hd.
    destruct Hd as [? ?]. discriminate.
Qed.

End Validate.

(** ** [createSymbology] and [callManagedLibrary] *)

Section Pipeline.

Context (E : binding).

Lemma createSymbology_string (o : gmap string value) data fn f :
  o !! "hasOwnProperty" = None ->
  get (validateSymbol_fill E o) "fileName" = VStr f ->
  createSymbology E o data fn =
  Exec (validateSymbol_fill E o)
       [createSymbology_args (validateSymbol_fill E o) data f]
       (Normal (symbology E fn (createSymbology_args (validateSymbol_fill E o) data f))).
Proof.
  intros Hfree H. unfold createSymbology. rewrite (validateSymbol_free E o Hfree).
  cbn [fst snd]. rewrite H. reflexivity.
Qed.

Lemma createSymbology_shadowed (o : gmap string value) data fn :
  is_Some (o !! "hasOwnProperty") ->
  createSymbology E o data fn =
  Exec o [] (Throw (not_a_function "symbologyStruct.hasOwnProperty")).
Proof.
  intros H. unfold createSymbology. rewrite (validateSymbol_shadowed E o H).
  reflexivity.
Qed.

Lemma createSymbology_not_string (o : gmap string value) data fn :
  o !! "hasOwnProperty" = None ->
  (forall f, get (validateSymbol_fill E o) "fileName" <> VStr f) ->
  exists msg,
    createSymbology E o data fn = Exec (validateSymbol_fill E o) [] (Throw (TypeError msg)).
Proof.
  intros Hfree H. unfold createSymbology. rewrite (validateSymbol_free E o Hfree).
  cbn [fst snd].
  destruct (get (validateSymbol_fill E o) "fileName") eqn:Hf;
    try (eexists; reflexivity).
  exfalso. eapply H. reflexivity.
Qed.

Lemma createSymbology_validated (o : gmap string value) data fn :
  createSymbology E (validateSymbol E o).1 data fn = createSymbology E o data fn.
Proof. unfold createSymbology. rewrite validateSymbol_again. reflexivity. Qed.

Lemma createSymbology_symbol_after (o : gmap string value) data fn :
  symbol_after (createSymbology E o data fn) = (validateSymbol E o).1.
Proof.
  unfold createSymbology. generalize (validateSymbol E o). intros [s c].
  cbn [fst snd]. destruct c; [|reflexivity].
  destruct (get s "fileName"); reflexivity.
Qed.

(** An output type outside the enumeration: thrown at once. *)
Lemma callManagedLibrary_invalid (symbol : gmap string value) data ty st :
  ty ∉ Output_values E ->
  callManagedLibrary E symbol data ty st =
  Exec symbol [] (Throw (Error ("Invalid output type: " +:+ ty))).
Proof.
  intros H. unfold callManagedLibrary.
  rewrite bool_decide_eq_false_2 by exact H. reflexivity.
Qed.


(** The struct after the output block, for an output type other than PNG. *)
Lemma callManagedLibrary_output_fileName (symbol : gmap string value) ty :
  ty <> Output_PNG E ->
  callManagedLibrary_output E symbol ty !! "fileName" = Some (VStr ("out." +:+ ty)).
Proof.
  intros Hne. unfold callManagedLibrary_output.
  destruct (String.eqb_spec ty (Output_PNG E)) as [|_]; [contradiction|]. cbn [negb].
  destruct (gt0 _); rewrite lookup_insert_ne by discriminate;
    apply lookup_insert_eq.
Qed.

Lemma callManagedLibrary_output_outputOptions (symbol : gmap string value) ty :
  ty <> Output_PNG E ->
  callManagedLibrary_output E symbol ty !! "outputOptions" =
  Some (if gt0 (parseInt (get symbol "outputOptions"))
        then add (get symbol "outputOptions") (VNum (Int 8))
        else VNum (Int 8)).
Proof.
  intros Hne. unfold callManagedLibrary_output.
  destruct (String.eqb_spec ty (Output_PNG E)) as [|_]; [contradiction|]. cbn [negb].
  assert (Hget : get (<["fileName" := VStr ("out." +:+ ty)]> symbol) "outputOptions"
                 = get symbol "outputOptions").
  { unfold get. rewrite lookup_insert_ne by discriminate. reflexivity. }
  rewrite Hget. destruct (gt0 _); apply lookup_insert_eq.
Qed.

Lemma callManagedLibrary_output_png (symbol : gmap string value) :
  callManagedLibrary_output E symbol (Output_PNG E) = symbol.
Proof.
  unfold callManagedLibrary_output. rewrite String.eqb_refl. reflexivity.
Qed.

Lemma callManagedLibrary_output_other (symbol : gmap string value) ty k :
  k <> "fileName" -> k <> "outputOptions" ->
  callManagedLibrary_output E symbol ty !! k = symbol !! k.
Proof.
  intros H1 H2. unfold callManagedLibrary_output.
  destruct (negb _); [|reflexivity].
  destruct (gt0 _); rewrite !lookup_insert_ne by congruence; reflexivity.
Qed.

Lemma callManagedLibrary_output_method (symbol : gmap string value) ty :
  callManagedLibrary_output E symbol ty !! "hasOwnProperty" = symbol !! "hasOwnProperty".
Proof. apply callManagedLibrary_output_other; discriminate. Qed.

(** An output type of the enumeration, no shadowed [hasOwnProperty] and
    a [fileName] that is a string: one native call, whose result settles
    the promise. *)
Lemma callManagedLibrary_invoked (symbol : gmap string value) data ty st f :
  ty ∈ Output_values E ->
  symbol !! "hasOwnProperty" = None ->
  get (validateSymbol_fill E (callManagedLibrary_output E symbol ty)) "fileName" = VStr f ->
  let S := validateSymbol_fill E (callManagedLibrary_output E symbol ty) in
  let args := createSymbology_args S data f in
  callManagedLibrary E symbol data ty st =
  Exec S [args] (Normal (callManagedLibrary_settle (symbology E "createStream" args))).
Proof.
  intros Hin Hfree Hf S args. unfold callManagedLibrary.
  rewrite bool_decide_eq_true_2 by exact Hin. cbn [negb].
  rewrite (createSymbology_string _ _ _ _
             (eq_trans (callManagedLibrary_output_method symbol ty) Hfree) Hf).
  reflexivity.
Qed.

Lemma callManagedLibrary_shadowed (symbol : gmap string value) data ty st :
  ty ∈ Output_values E ->
  is_Some (symbol !! "hasOwnProperty") ->
  callManagedLibrary E symbol data ty st =
  Exec (callManagedLibrary_output E symbol ty) []
       (Throw (not_a_function "symbologyStruct.hasOwnProperty")).
Proof.
  intros Hin Hs. unfold callManagedLibrary.
  rewrite bool_decide_eq_true_2 by exact Hin. cbn [negb].
  rewrite createSymbology_shadowed; [reflexivity|].
  rewrite callManagedLibrary_output_method. exact Hs.
Qed.

Lemma callManagedLibrary_type_error (symbol : gmap string value) data ty st :
  ty ∈ Output_values E ->
  symbol !! "hasOwnProperty" = None ->
  (forall f, get (validateSymbol_fill E (callManagedLibrary_output E symbol ty)) "fileName"
             <> VStr f) ->
  exists msg,
    callManagedLibrary E symbol data ty st =
    Exec (validateSymbol_fill E (callManagedLibrary_output E symbol ty)) []
         (Throw (TypeError msg)).
Proof.
  intros Hin Hfree Hf. unfold callManagedLibrary.
  rewrite bool_decide_eq_true_2 by exact Hin. cbn [negb].
  destruct (createSymbology_not_string (callManagedLibrary_output E symbol ty) data
              "createStream"
              (eq_trans (callManagedLibrary_output_method symbol ty) Hfree) Hf)
    as [msg ->].
  exists msg. reflexivity.
Qed.

(** The two ways a call of [callManagedLibrary] can go: it throws
    without reaching the native function, or it reaches it once and
    settles by its result. *)
Lemma callManagedLibrary_cases (symbol : gmap string value) data ty st :
  (exists e S', callManagedLibrary E symbol data ty st = Exec S' [] (Throw e)) \/
  (exists f,
     ty ∈ Output_values E /\
     symbol !! "hasOwnProperty" = None /\
     get (validateSymbol_fill E (callManagedLibrary_output E symbol ty)) "fileName" = VStr f /\
     callManagedLibrary E symbol data ty st =
     Exec (validateSymbol_fill E (callManagedLibrary_output E symbol ty))
       [createSymbology_args
          (validateSymbol_fill E (callManagedLibrary_output E symbol ty)) data f]
       (Normal (callManagedLibrary_settle
                  (symbology E "createStream"
                     (createSymbology_args
                        (validateSymbol_fill E (callManagedLibrary_output E symbol ty))
                        data f))))).
Proof.
  destruct (decide (ty ∈ Output_values E)) as [Hty|Hty].
  2:{ left. do 2 eexists. apply callManagedLibrary_invalid. exact Hty. }
  destruct (symbol !! "hasOwnProperty") as [m|] eqn:Hfree.
  { left. do 2 eexists. apply callManagedLibrary_shadowed; [exact Hty | eauto]. }
  destruct (get (validateSymbol_fill E (callManagedLibrary_output E symbol ty)) "fileName")
    as [| |b|n|f] eqn:Hf.
  5:{ right. exists f. split; [exact Hty|]. split; [reflexivity|]. split; [reflexivity|].
      apply (callManagedLibrary_invoked symbol data ty st f Hty Hfree Hf). }
  all: left;
       destruct (callManagedLibrary_type_error symbol data ty st Hty Hfree) as [msg Hmsg];
       [intros f; rewrite Hf; discriminate | do 2 eexists; exact Hmsg].
Qed.

(** Whenever the native function is reached, it is reached once, with
    the arguments read off the validated struct, and its result alone
    settles the promise. *)
Lemma callManagedLibrary_call (symbol : gmap string value) data ty st args :
  In args (native_calls (callManagedLibrary E symbol data ty st)) ->
  ty ∈ Output_values E /\
  (exists f,
     get (validateSymbol_fill E (callManagedLibrary_output E symbol ty)) "fileName" = VStr f /\
     args = createSymbology_args
              (validateSymbol_fill E (callManagedLibrary_output E symbol ty)) data f) /\
  native_calls (callManagedLibrary E symbol data ty st) = [args] /\
  completion (callManagedLibrary E symbol data ty st) =
  Normal (callManagedLibrary_settle (symbology E "createStream" args)).
Proof.
  intros Hin.
  destruct (callManagedLibrary_cases symbol data ty st)
    as [(e & S' & Hcall)|(f & Hty & _ & Hf & Hcall)];
    rewrite Hcall in Hin |- *; cbn [native_calls In] in Hin.
  - destruct Hin.
  - destruct Hin as [<-|[]].
    split; [exact Hty|]. split; [exists f; split; [exact Hf | reflexivity]|].
    split; reflexivity.
Qed.

(** A call that reaches the native function was made on a struct that
    does not shadow [hasOwnProperty]. *)
Lemma callManagedLibrary_call_free (symbol : gmap string value) data ty st args :
  In args (native_calls (callManagedLibrary E symbol data ty st)) ->
  symbol !! "hasOwnProperty" = None.
Proof.
  intros Hin.
  destruct (callManagedLibrary_cases symbol data ty st)
    as [(e & S' & Hcall)|(f & _ & Hfree & _)]; [|exact Hfree].
  rewrite Hcall in Hin. destruct Hin.
Qed.

End Pipeline.

(** ** The promise and the forwarded arguments *)

Section Settle.

Context (E : binding).

Lemma settle_resolved res :
  code res <= 2 ->
  exists o, callManagedLibrary_settle res = Resolved o /\
            carries_output o res (encodedData res).
Proof.
  intros Hc. unfold callManagedLibrary_settle.
  rewrite (proj2 (Z.leb_le _ _) Hc).
  eexists. split; [reflexivity|].
  unfold carries_output, resolved_keys.
  split; [|repeat split].
  rewrite !dom_insert_L, dom_empty_L. set_solver.
Qed.

Lemma settle_rejected res :
  3 <= code res ->
  exists o, callManagedLibrary_settle res = Rejected o /\ carries_error o res.
Proof.
  intros Hc. unfold callManagedLibrary_settle.
  rewrite (proj2 (Z.leb_gt _ _)) by lia.
  eexists. split; [reflexivity|].
  unfold carries_error, rejected_keys.
  split; [|repeat split].
  rewrite !dom_insert_L, dom_empty_L. set_solver.
Qed.

Lemma settle_cases res :
  (code res <= 2 /\
   exists o, callManagedLibrary_settle res = Resolved o /\
             carries_output o res (encodedData res)) \/
  (3 <= code res /\
   exists o, callManagedLibrary_settle res = Rejected o /\ carries_error o res).
Proof.
  destruct (Z.le_gt_cases (code res) 2) as [Hc|Hc].
  - left. split; [exact Hc|]. apply settle_resolved. exact Hc.
  - right. split; [lia|]. apply settle_rejected. lia.
Qed.

(** The handler of [exp.createStream] on the object [callManagedLibrary]
    resolved with. *)
Lemma createStream_then_other ty o :
  ty <> Output_PNG E -> createStream_then E ty o = Resolved o.
Proof.
  intros Hne. unfold createStream_then.
  destruct (String.eqb_spec ty (Output_PNG E)); [contradiction | reflexivity].
Qed.

Lemma createStream_then_png res o d :
  carries_output o res d ->
  match pngRender_data d (width res) (height res) with
  | Throw e => createStream_then E (Output_PNG E) o = RejectedWith e
  | Normal img =>
      match pack_base64 E img with
      | None => createStream_then E (Output_PNG E) o = Pending
      | Some chunks =>
          exists o', createStream_then E (Output_PNG E) o = Resolved o' /\
                     carries_output o' res
                       (Prim (VStr ("data:image/png;base64," +:+ chunks)))
      end
  end.
Proof.
  intros (Hdom & Hd & Hm & Hc & Hw & Hh).
  unfold createStream_then, field. rewrite String.eqb_refl.
  rewrite Hd, Hw, Hh, Hm, Hc. cbn [default from_option id].
  rewrite !Nat2Z.id.
  destruct (pngRender_data d (width res) (height res)) as [img|e]; [|reflexivity].
  unfold blobToBase64Png.
  destruct (pack_base64 E img) as [chunks|]; [|reflexivity].
  eexists. split; [reflexivity|].
  unfold carries_output, resolved_keys.
  split; [|repeat split].
  rewrite !dom_insert_L, dom_empty_L. set_solver.
Qed.

Lemma pngRender_data_indexed d bitmap w h :
  indexed d = Some bitmap -> pngRender_data d w h = Normal (pngRender bitmap w h).
Proof. intros H. unfold pngRender_data. rewrite H. reflexivity. Qed.

Lemma createStream_native_calls (symbol : gmap string value) data oty :
  native_calls (createStream E symbol data oty) =
  native_calls (callManagedLibrary E symbol data (default (Output_PNG E) oty) (VBool true)).
Proof.
  unfold createStream.
  generalize (callManagedLibrary E symbol data (default (Output_PNG E) oty) (VBool true)).
  intros r. destruct (completion r) as [[o|o|e|]|e]; reflexivity.
Qed.

Lemma createStream_symbol_after (symbol : gmap string value) data oty :
  symbol_after (createStream E symbol data oty) =
  symbol_after (callManagedLibrary E symbol data (default (Output_PNG E) oty) (VBool true)).
Proof.
  unfold createStream.
  generalize (callManagedLibrary E symbol data (default (Output_PNG E) oty) (VBool true)).
  intros r. destruct (completion r) as [[o|o|e|]|e]; reflexivity.
Qed.

(** How [exp.createStream] completes once the native function has been
    reached. *)
Lemma createStream_completion (symbol : gmap string value) data oty args :
  In args (native_calls (createStream E symbol data oty)) ->
  completion (createStream E symbol data oty) =
  match callManagedLibrary_settle (symbology E "createStream" args) with
  | Resolved o => Normal (createStream_then E (default (Output_PNG E) oty) o)
  | p => Normal p
  end.
Proof.
  intros Hin. rewrite createStream_native_calls in Hin.
  destruct (callManagedLibrary_call E _ _ _ _ _ Hin) as (_ & _ & _ & Hcompl).
  unfold createStream. cbv zeta.
  revert Hcompl.
  generalize (callManagedLibrary E symbol data (default (Output_PNG E) oty) (VBool true)).
  generalize (callManagedLibrary_settle (symbology E "createStream" args)).
  intros p r Hcompl. rewrite Hcompl.
  destruct p; cbn [completion]; [reflexivity | exact Hcompl..].
Qed.

(** C1, as the code has it.  Whenever the encoder has been called (with
    [args]) and has returned [res]:
    - [callManagedLibrary] resolves, for a code of at most 2, with an
      object holding the encoder's data, message, code, width and
      height, and rejects, for a code of at least 3, with an object
      holding message and code and no data;
    - [exp.createStream] rejects in the same way for a code of at least
      3; for a code of at most 2 and an output type other than PNG it
      resolves with that same object; for a code of at most 2 and the
      PNG output type it resolves, once the packed PNG stream of the
      image rendered from the returned data has ended, with the data-URI
      header followed by the base64 text of that stream as data, and
      message, code, width and height. *)
Theorem promise_settled_by_result_code (symbol : gmap string value) data ty st oty args :
  let res := symbology E "createStream" args in
  (In args (native_calls (callManagedLibrary E symbol data ty st)) ->
   (code res <= 2 ->
    exists o, completion (callManagedLibrary E symbol data ty st) = Normal (Resolved o) /\
              carries_output o res (encodedData res)) /\
   (3 <= code res ->
    exists o, completion (callManagedLibrary E symbol data ty st) = Normal (Rejected o) /\
              carries_error o res)) /\
  (In args (native_calls (createStream E symbol data oty)) ->
   (code res <= 2 -> default (Output_PNG E) oty <> Output_PNG E ->
    exists o, completion (createStream E symbol data oty) = Normal (Resolved o) /\
              carries_output o res (encodedData res)) /\
   (code res <= 2 -> default (Output_PNG E) oty = Output_PNG E ->
    forall bitmap chunks,
      indexed (encodedData res) = Some bitmap ->
      pack_base64 E (pngRender bitmap (width res) (height res)) = Some chunks ->
      exists o, completion (createStream E symbol data oty) = Normal (Resolved o) /\
                carries_output o res
                  (Prim (VStr ("data:image/png;base64," +:+ chunks)))) /\
   (3 <= code res ->
    exists o, completion (createStream E symbol data oty) = Normal (Rejected o) /\
              carries_error o res)).
Proof.
  intros res. split.
  - intros Hin.
    destruct (callManagedLibrary_call E _ _ _ _ _ Hin) as (_ & _ & _ & Hcompl).
    rewrite Hcompl. fold res. split; intros Hc.
    + destruct (settle_resolved res Hc) as (o & -> & Ho). eauto.
    + destruct (settle_rejected res Hc) as (o & -> & Ho). eauto.
  - intros Hin. rewrite (createStream_completion _ _ _ _ Hin). fold res.
    split; [|split].
    + intros Hc Hne. destruct (settle_resolved res Hc) as (o & -> & Ho).
      rewrite (createStream_then_other _ _ Hne). eauto.
    + intros Hc Hpng bitmap chunks Hbitmap Hpack.
      destruct (settle_resolved res Hc) as (o & -> & Ho). rewrite Hpng.
      pose proof (createStream_then_png res o _ Ho) as Hthen.
      rewrite (pngRender_data_indexed _ _ _ _ Hbitmap), Hpack in Hthen.
      destruct Hthen as (o' & -> & Ho'). eauto.
    + intros Hc. destruct (settle_rejected res Hc) as (o & -> & Ho). eauto.
Qed.

(** C8: an output type that is not a value of the Output enumeration
    makes [callManagedLibrary], and so [exp.createStream], throw an Error
    before anything else happens: no native call is made and the symbol
    struct is as the caller passed it. *)
Theorem invalid_output_type_throws (symbol : gmap string value) data ty st :
  ty ∉ Output_values E ->
  callManagedLibrary E symbol data ty st =
    Exec symbol [] (Throw (Error ("Invalid output type: " +:+ ty))) /\
  createStream E symbol data (Some ty) =
    Exec symbol [] (Throw (Error ("Invalid output type: " +:+ ty))).
Proof.
  intros Hty. split.
  - apply callManagedLibrary_invalid. exact Hty.
  - unfold createStream. cbn [default from_option id].
    rewrite (callManagedLibrary_invalid E _ _ _ _ Hty). reflexivity.
Qed.

End Settle.

Section Forwarded.

Context (E : binding).

Lemma fileName_usable_string (symbol : gmap string value) :
  fileName_usable symbol = true ->
  exists f, get (validateSymbol_fill E symbol) "fileName" = VStr f.
Proof.
  unfold fileName_usable, get. intros H. rewrite validateSymbol_lookup.
  destruct (symbol !! "fileName") as [[| | | |f]|]; try discriminate.
  - exists f. reflexivity.
  - exists "out.bmp". reflexivity.
Qed.

(** On a struct that does not shadow [hasOwnProperty] the [fileName]
    read by [createSymbology] is a string for every output type other
    than PNG, and for PNG when the caller's [fileName] is absent or a
    string. *)
Lemma callManagedLibrary_reaches_native (symbol : gmap string value) ty :
  (ty = Output_PNG E -> fileName_usable symbol = true) ->
  exists f,
    get (validateSymbol_fill E (callManagedLibrary_output E symbol ty)) "fileName" = VStr f.
Proof.
  intros Hfile.
  destruct (decide (ty = Output_PNG E)) as [->|Hne].
  - rewrite callManagedLibrary_output_png. apply fileName_usable_string. auto.
  - exists ("out." +:+ ty). unfold get.
    rewrite (validateSymbol_present E _ _ _ (callManagedLibrary_output_fileName E _ _ Hne)).
    reflexivity.
Qed.

Lemma round_double_safe z : - 2 ^ 53 < z < 2 ^ 53 -> round_double z = z.
Proof.
  intros Hz. unfold round_double.
  destruct (Z.ltb_spec (Z.abs z) (2 ^ 53)); [reflexivity | lia].
Qed.

(** C2, as the code has it: for an output type of the enumeration other
    than PNG, on a struct that does not shadow [hasOwnProperty], the
    encoder is reached, and the forwarded outputOptions is the caller's
    value plus 8 only when [parseInt] of that value is positive;
    otherwise it is 8.  In particular a positive integer n is forwarded
    as n + 8 as long as n + 8 is below 2^53 (beyond, the sum is the
    nearest double), while zero, a negative integer (the default -1
    included) and an absent property are forwarded as 8. *)
Theorem outputOptions_forwarded_for_non_png (symbol : gmap string value) data ty st :
  ty ∈ Output_values E ->
  ty <> Output_PNG E ->
  symbol !! "hasOwnProperty" = None ->
  exists args,
    native_calls (callManagedLibrary E symbol data ty st) = [args] /\
    a_outputOptions args =
      (if gt0 (parseInt (get symbol "outputOptions"))
       then add (get symbol "outputOptions") (VNum (Int 8))
       else VNum (Int 8)) /\
    (forall n, symbol !! "outputOptions" = Some (VNum (Int n)) -> 0 < n -> n + 8 < 2 ^ 53 ->
               a_outputOptions args = VNum (Int (n + 8))) /\
    (forall n, symbol !! "outputOptions" = Some (VNum (Int n)) -> n <= 0 ->
               a_outputOptions args = VNum (Int 8)) /\
    (symbol !! "outputOptions" = None -> a_outputOptions args = VNum (Int 8)).
Proof.
  intros Hty Hne Hfree.
  destruct (callManagedLibrary_reaches_native symbol ty) as [f Hf];
    [intros; contradiction|].
  rewrite (callManagedLibrary_invoked E symbol data ty st f Hty Hfree Hf).
  eexists. split; [reflexivity|].
  assert (Hopt : a_outputOptions
            (createSymbology_args
               (validateSymbol_fill E (callManagedLibrary_output E symbol ty)) data f) =
          (if gt0 (parseInt (get symbol "outputOptions"))
           then add (get symbol "outputOptions") (VNum (Int 8))
           else VNum (Int 8))).
  { cbn [createSymbology_args a_outputOptions]. unfold get at 1.
    rewrite (validateSymbol_present E _ _ _
               (callManagedLibrary_output_outputOptions E symbol ty Hne)).
    reflexivity. }
  rewrite Hopt. split; [reflexivity|]. unfold get.
  split; [|split].
  - intros n Hn Hpos Hsafe. rewrite Hn. cbn [default from_option id].
    rewrite parseInt_number. cbn [gt0].
    rewrite (proj2 (Z.ltb_lt 0 n) Hpos).
    cbn [add ToNumber_nonstring num_add].
    rewrite round_double_safe by lia. reflexivity.
  - intros n Hn Hle. rewrite Hn. cbn [default from_option id].
    rewrite parseInt_number. cbn [gt0].
    rewrite (proj2 (Z.ltb_ge 0 n) Hle). reflexivity.
  - intros Hn. rewrite Hn. reflexivity.
Qed.

(** C6: when the caller's struct has no [height], every call that
    reaches the encoder forwards the default height 50; and the encoder
    is reached for every output type of the enumeration, on a struct
    that does not shadow [hasOwnProperty] (for PNG, provided the
    caller's [fileName] is absent or a string). *)
Theorem default_height_is_forwarded (symbol : gmap string value) data ty st :
  symbol !! "height" = None ->
  (forall args, In args (native_calls (callManagedLibrary E symbol data ty st)) ->
                a_height args = VNum (Int 50)) /\
  (ty ∈ Output_values E ->
   symbol !! "hasOwnProperty" = None ->
   (ty = Output_PNG E -> fileName_usable symbol = true) ->
   exists args, native_calls (callManagedLibrary E symbol data ty st) = [args] /\
                a_height args = VNum (Int 50)).
Proof.
  intros Hh.
  assert (Hheight : forall f,
            a_height (createSymbology_args
                        (validateSymbol_fill E (callManagedLibrary_output E symbol ty)) data f)
            = VNum (Int 50)).
  { intros f. cbn [createSymbology_args a_height]. unfold get.
    rewrite validateSymbol_lookup.
    rewrite callManagedLibrary_output_other by discriminate.
    rewrite Hh. reflexivity. }
  split.
  - intros args Hin.
    destruct (callManagedLibrary_call E _ _ _ _ _ Hin) as (_ & (f & _ & Hargs) & _).
    rewrite Hargs. apply Hheight.
  - intros Hty Hfree Hfile.
    destruct (callManagedLibrary_reaches_native symbol ty Hfile) as [f Hf].
    rewrite (callManagedLibrary_invoked E symbol data ty st f Hty Hfree Hf).
    eexists. split; [reflexivity | apply Hheight].
Qed.


(** With the PNG output type only [validateSymbol] writes to the struct. *)
Lemma callManagedLibrary_png_symbol_after (symbol : gmap string value) data st :
  symbol_after (callManagedLibrary E symbol data (Output_PNG E) st) =
  if bool_decide (Output_PNG E ∈ Output_values E)
  then (validateSymbol E symbol).1 else symbol.
Proof.
  unfold callManagedLibrary. rewrite callManagedLibrary_output_png.
  destruct (bool_decide (Output_PNG E ∈ Output_values E)); cbn [negb]; [|reflexivity].
  rewrite <- (createSymbology_symbol_after E symbol data "createStream").
  generalize (createSymbology E symbol data "createStream"). intros r.
  destruct (completion r); reflexivity.
Qed.

(** A second PNG call on the struct the first one left behaves as the
    first. *)
Lemma callManagedLibrary_png_again (symbol : gmap string value) data st st' :
  callManagedLibrary E
    (symbol_after (callManagedLibrary E symbol data (Output_PNG E) st))
    data (Output_PNG E) st' =
  callManagedLibrary E symbol data (Output_PNG E) st.
Proof.
  rewrite callManagedLibrary_png_symbol_after.
  case_bool_decide as Hpng; [|reflexivity].
  unfold callManagedLibrary.
  rewrite bool_decide_eq_true_2 by exact Hpng. cbn [negb].
  rewrite !callManagedLibrary_output_png, createSymbology_validated.
  reflexivity.
Qed.

(** X16: with the PNG output type, two calls in a row on the same
    symbol object forward the same arguments to the encoder, complete
    the same way and leave the object as the first call left it; for
    [callManagedLibrary] and for [exp.createStream] (output type left
    out, or given as PNG). *)
Theorem png_calls_repeat_identically (symbol : gmap string value) data :
  (let '(r1, r2) := callManagedLibrary_twice E symbol data (Output_PNG E) in
   native_calls r2 = native_calls r1 /\
   completion r2 = completion r1 /\
   symbol_after r2 = symbol_after r1) /\
  (let '(r1, r2) := createStream_twice E symbol data None in
   native_calls r2 = native_calls r1 /\
   completion r2 = completion r1 /\
   symbol_after r2 = symbol_after r1) /\
  (let '(r1, r2) := createStream_twice E symbol data (Some (Output_PNG E)) in
   native_calls r2 = native_calls r1 /\
   completion r2 = completion r1 /\
   symbol_after r2 = symbol_after r1).
Proof.
  assert (Hstream : forall oty, default (Output_PNG E) oty = Output_PNG E ->
            createStream E (symbol_after (createStream E symbol data oty)) data oty =
            createStream E symbol data oty).
  { intros oty Hoty. rewrite createStream_symbol_after.
    unfold createStream. rewrite Hoty.
    rewrite callManagedLibrary_png_again. reflexivity. }
  split; [|split].
  - unfold callManagedLibrary_twice.
    rewrite callManagedLibrary_png_again. repeat split.
  - unfold createStream_twice. rewrite Hstream by reflexivity. repeat split.
  - unfold createStream_twice. rewrite Hstream by reflexivity. repeat split.
Qed.

End Forwarded.

(** ** [pngRender] *)

Section Render.

Local Open Scope nat_scope.

Variable bitmap : list value.

(** The inner loop, after [n] columns of row [y], started at index [i]. *)
Lemma pngRender_pixels_fold (y n : nat) (img : image) (i : nat) :
  let st := fold_left (pngRender_pixel bitmap y) (seq 0 n) (img, i) in
  st.2 = i + 3 * n /\
  forall x' y',
    getAt st.1 x' y' =
    if decide (y' = y /\ x' < n)
    then Some (color_at bitmap (i + 3 * x'))
    else getAt img x' y'.
Proof.
  induction n as [|n IH]; cbn zeta.
  - split; [cbn; lia|]. intros x' y'.
    destruct (decide _) as [[_ H]|_]; [lia | reflexivity].
  - rewrite seq_S, fold_left_app. cbn [fold_left Nat.add].
    cbn zeta in IH. destruct IH as [Hi Hpx].
    destruct (fold_left (pngRender_pixel bitmap y) (seq 0 n) (img, i)) as [img1 i1].
    cbn [fst snd] in *. subst i1. unfold pngRender_pixel. cbn [fst snd].
    split; [lia|]. intros x' y'. unfold getAt, setAt. cbn [pixels].
    destruct (decide ((n, y) = (x', y'))) as [Heq|Hne].
    + injection Heq as <- <-. rewrite lookup_insert_eq.
      destruct (decide _) as [_|Hn]; [reflexivity | lia].
    + rewrite lookup_insert_ne by exact Hne.
      fold (getAt img1 x' y'). rewrite Hpx.
      destruct (decide (y' = y /\ x' < n)) as [H1|H1];
        destruct (decide (y' = y /\ x' < S n)) as [H2|H2];
        try reflexivity.
      * exfalso. lia.
      * exfalso. destruct H2 as [-> H2]. assert (x' = n) by lia.
        subst x'. apply Hne. reflexivity.
Qed.

(** The outer loop, after [m] rows of [w] columns, started at index [i]. *)
Lemma pngRender_rows_fold (w m : nat) (img : image) (i : nat) :
  let st := fold_left (pngRender_row bitmap w) (seq 0 m) (img, i) in
  st.2 = i + 3 * (w * m) /\
  forall x' y',
    getAt st.1 x' y' =
    if decide (y' < m /\ x' < w)
    then Some (color_at bitmap (i + 3 * (y' * w + x')))
    else getAt img x' y'.
Proof.
  induction m as [|m IH]; cbn zeta.
  - split; [cbn; lia|]. intros x' y'.
    destruct (decide _) as [[H _]|_]; [lia | reflexivity].
  - rewrite seq_S, fold_left_app. cbn [fold_left Nat.add].
    cbn zeta in IH. destruct IH as [Hi Hpx].
    destruct (fold_left (pngRender_row bitmap w) (seq 0 m) (img, i)) as [img1 i1].
    cbn [fst snd] in *. subst i1. unfold pngRender_row.
    destruct (pngRender_pixels_fold m w img1 (i + 3 * (w * m))) as [Hi' Hpx'].
    cbn zeta in Hi', Hpx'. split; [rewrite Hi'; lia|].
    intros x' y'. rewrite Hpx', Hpx.
    destruct (decide (y' = m /\ x' < w)) as [[-> Hlt]|H1].
    + destruct (decide (m < S m /\ x' < w)) as [_|H2]; [|lia].
      f_equal. f_equal. lia.
    + destruct (decide (y' < m /\ x' < w)) as [H2|H2];
        destruct (decide (y' < S m /\ x' < w)) as [H3|H3];
        try reflexivity; exfalso; lia.
Qed.

(** What [pngRender] has written at every position, and where its
    running index ends. *)
Lemma pngRender_loop_spec (w h : nat) :
  (pngRender_loop bitmap w h).2 = 3 * (w * h) /\
  forall x y,
    getAt (pngRender bitmap w h) x y =
    if decide (y < h /\ x < w) then Some (color_at bitmap (3 * (y * w + x))) else None.
Proof.
  unfold pngRender, pngRender_loop.
  destruct (pngRender_rows_fold w h (createImage w h) 0) as [Hi Hpx].
  cbn zeta in Hi, Hpx. split; [rewrite Hi; lia|].
  intros x y. rewrite Hpx.
  destruct (decide _); [reflexivity|].
  unfold getAt, createImage. cbn [pixels]. apply lookup_empty.
Qed.

(** C7: the bitmap is read as 3 bytes per pixel in row-major order:
    pixel (x, y) takes its red, green and blue from the bytes at
    3*(y*width+x), 3*(y*width+x)+1 and 3*(y*width+x)+2, and the running
    index ends at 3*width*height. *)
Theorem pngRender_reads_rgb_row_major (width height : nat) :
  (pngRender_loop bitmap width height).2 = 3 * width * height /\
  forall x y, x < width -> y < height ->
    getAt (pngRender bitmap width height) x y =
    Some {| red := index bitmap (3 * (y * width + x));
            green := index bitmap (3 * (y * width + x) + 1);
            blue := index bitmap (3 * (y * width + x) + 2);
            alpha := VNum (Int 200) |}.
Proof.
  destruct (pngRender_loop_spec width height) as [Hi Hpx].
  split; [rewrite Hi; lia|].
  intros x y Hx Hy. rewrite Hpx.
  destruct (decide _) as [_|H]; [reflexivity | lia].
Qed.

(** C10: every pixel of the image [pngRender] returns has been written,
    and every written pixel has alpha 200, whatever the bitmap holds. *)
Theorem pngRender_alpha_is_200 (width height : nat) :
  (forall x y, x < width -> y < height ->
     exists c, getAt (pngRender bitmap width height) x y = Some c /\
               alpha c = VNum (Int 200)) /\
  (forall x y c, getAt (pngRender bitmap width height) x y = Some c ->
     alpha c = VNum (Int 200)).
Proof.
  destruct (pngRender_loop_spec width height) as [_ Hpx].
  split.
  - intros x y Hx Hy. rewrite Hpx.
    destruct (decide _) as [_|H]; [|lia].
    eexists. split; reflexivity.
  - intros x y c. rewrite Hpx.
    destruct (decide _); [|discriminate].
    intros [= <-]. reflexivity.
Qed.

End Render.

(** ** The statements at concrete inputs *)

Lemma demo_output_types :
  ("png" ∈ Output_values demo) /\ ("svg" ∈ Output_values demo) /\
  ("gif" ∉ Output_values demo) /\ "svg" <> Output_PNG demo.
Proof.
  repeat split.
  - apply (bool_decide_unpack _). vm_compute. exact I.
  - apply (bool_decide_unpack _). vm_compute. exact I.
  - apply (bool_decide_unpack _). vm_compute. exact I.
  - discriminate.
Defined.

(** C1 at work: "HELLO" is accepted (code 0); [callManagedLibrary]
    resolves with the bitmap and [exp.createStream] with the data URI of
    the packed image; the empty string is refused (code 6) and the
    promise rejects with message and code only. *)
Lemma promise_settled_by_result_code_witness :
  let ok := createSymbology_args (validateSymbol_fill demo ∅) (VStr "HELLO") "out.bmp" in
  let ko := createSymbology_args (validateSymbol_fill demo ∅) (VStr "") "out.bmp" in
  let res := symbology demo "createStream" ok in
  (In ok (native_calls (callManagedLibrary demo ∅ (VStr "HELLO") "png" VUndef)) /\
   code res <= 2 /\
   exists o,
     completion (callManagedLibrary demo ∅ (VStr "HELLO") "png" VUndef)
       = Normal (Resolved o) /\
     carries_output o res (encodedData res)) /\
  (In ok (native_calls (createStream demo ∅ (VStr "HELLO") None)) /\
   exists o,
     completion (createStream demo ∅ (VStr "HELLO") None) = Normal (Resolved o) /\
     carries_output o res (Prim (VStr ("data:image/png;base64," +:+ "iVBORw0KGgo=")))) /\
  (In ko (native_calls (createStream demo ∅ (VStr "") None)) /\
   3 <= code (symbology demo "createStream" ko) /\
   exists o,
     completion (createStream demo ∅ (VStr "") None) = Normal (Rejected o) /\
     carries_error o (symbology demo "createStream" ko)).
Proof.
  intros ok ko res.
  assert (Hok : In ok (native_calls (callManagedLibrary demo ∅ (VStr "HELLO") "png" VUndef)))
    by (vm_compute; left; reflexivity).
  assert (Hok' : In ok (native_calls (createStream demo ∅ (VStr "HELLO") None)))
    by (vm_compute; left; reflexivity).
  assert (Hko : In ko (native_calls (createStream demo ∅ (VStr "") None)))
    by (vm_compute; left; reflexivity).
  assert (Hc : code res <= 2) by (vm_compute; discriminate).
  assert (Hd : 3 <= code (symbology demo "createStream" ko)) by (vm_compute; discriminate).
  assert (Hpng : default (Output_PNG demo) None = Output_PNG demo) by reflexivity.
  assert (Hbitmap : indexed (encodedData res) =
                    Some [ VNum (Int 0); VNum (Int 0); VNum (Int 0);
                           VNum (Int 255); VNum (Int 255); VNum (Int 255) ])
    by (vm_compute; reflexivity).
  assert (Hpack : pack_base64 demo
                    (pngRender [ VNum (Int 0); VNum (Int 0); VNum (Int 0);
                                 VNum (Int 255); VNum (Int 255); VNum (Int 255) ]
                       (width res) (height res)) = Some "iVBORw0KGgo=")
    by (vm_compute; reflexivity).
  split; [|split].
  - split; [exact Hok|]. split; [exact Hc|].
    exact (proj1 (proj1 (promise_settled_by_result_code demo ∅ (VStr "HELLO") "png" VUndef
                           None ok) Hok) Hc).
  - split; [exact Hok'|].
    exact (proj1 (proj2 (proj2 (promise_settled_by_result_code demo ∅ (VStr "HELLO") "png"
                                  VUndef None ok) Hok'))
             Hc Hpng _ _ Hbitmap Hpack).
  - split; [exact Hko|]. split; [exact Hd|].
    exact (proj2 (proj2 (proj2 (promise_settled_by_result_code demo ∅ (VStr "") "png" VUndef
                                  None ko) Hko)) Hd).
Defined.

(** C1 as stated fails: the encoder accepts (code 0) with an image of no
    pixels, the packed PNG stream never ends, and the promise of
    [exp.createStream] neither resolves nor rejects. *)
Lemma createStream_pending_on_empty_image :
  let r := createStream demo_blank ∅ (VStr "HELLO") None in
  exists args,
    native_calls r = [args] /\
    code (symbology demo_blank "createStream" args) <= 2 /\
    completion r = Normal Pending /\
    forall o, completion r <> Normal (Resolved o).
Proof.
  cbv zeta. eexists. split; [vm_compute; reflexivity|].
  split; [vm_compute; discriminate|].
  assert (H : completion (createStream demo_blank ∅ (VStr "HELLO") None) = Normal Pending)
    by (vm_compute; reflexivity).
  split; [exact H|]. intros o. rewrite H. discriminate.
Qed.

(** C2 as stated fails: the default outputOptions, -1, reaches the
    encoder as 8, not as -1 + 8. *)
Lemma outputOptions_minus_one_forwarded_as_8 :
  ("svg" ∈ Output_values demo) /\ "svg" <> Output_PNG demo /\
  exists args,
    native_calls
      (callManagedLibrary demo (<["outputOptions" := VNum (Int (-1))]> ∅)
         (VStr "HELLO") "svg" VUndef) = [args] /\
    a_outputOptions args = VNum (Int 8) /\
    a_outputOptions args <> VNum (Int (-1 + 8)).
Proof.
  split; [exact (proj1 (proj2 demo_output_types))|].
  split; [discriminate|].
  eexists. split; [vm_compute; reflexivity|].
  split; [vm_compute; reflexivity|].
  vm_compute. discriminate.
Qed.

(** C2 at work: 4 is forwarded as 12, and a struct without
    outputOptions forwards 8. *)
Lemma outputOptions_forwarded_for_non_png_witness :
  let s : gmap string value := <["outputOptions" := VNum (Int 4)]> ∅ in
  ("svg" ∈ Output_values demo) /\ "svg" <> Output_PNG demo /\
  s !! "hasOwnProperty" = None /\
  (exists args,
     native_calls (callManagedLibrary demo s (VStr "HELLO") "svg" VUndef) = [args] /\
     a_outputOptions args = VNum (Int (4 + 8))) /\
  (exists args,
     native_calls (callManagedLibrary demo ∅ (VStr "HELLO") "svg" VUndef) = [args] /\
     a_outputOptions args = VNum (Int 8)).
Proof.
  intros s.
  pose proof (proj1 (proj2 demo_output_types)) as Hsvg.
  assert (Hne : "svg" <> Output_PNG demo) by discriminate.
  assert (Hfree : s !! "hasOwnProperty" = None) by (vm_compute; reflexivity).
  assert (Hfree' : (∅ : gmap string value) !! "hasOwnProperty" = None)
    by (vm_compute; reflexivity).
  split; [exact Hsvg|]. split; [exact Hne|]. split; [exact Hfree|]. split.
  - destruct (outputOptions_forwarded_for_non_png demo s (VStr "HELLO") "svg" VUndef
                Hsvg Hne Hfree) as (args & Hcalls & _ & Hpos & _ & _).
    exists args. split; [exact Hcalls|].
    apply Hpos; [vm_compute; reflexivity | lia | lia].
  - destruct (outputOptions_forwarded_for_non_png demo ∅ (VStr "HELLO") "svg" VUndef
                Hsvg Hne Hfree') as (args & Hcalls & _ & _ & _ & Habsent).
    exists args. split; [exact Hcalls|].
    apply Habsent. vm_compute. reflexivity.
Defined.

(** C3 on the code: a refused SVG request, retried with the same symbol
    object, reaches the encoder with outputOptions 8 the first time and
    16 the second. *)
Theorem svg_retry_forwards_other_outputOptions :
  let '(r1, r2) := callManagedLibrary_twice demo ∅ (VStr "") "svg" in
  (exists o1 o2, completion r1 = Normal (Rejected o1) /\
                 completion r2 = Normal (Rejected o2)) /\
  map a_outputOptions (native_calls r1) = [VNum (Int 8)] /\
  map a_outputOptions (native_calls r2) = [VNum (Int 16)] /\
  native_calls r1 <> native_calls r2.
Proof.
  cbv beta iota zeta delta [callManagedLibrary_twice].
  split; [do 2 eexists; split; vm_compute; reflexivity|].
  split; [vm_compute; reflexivity|]. split; [vm_compute; reflexivity|].
  intros H. apply (f_equal (map a_outputOptions)) in H.
  vm_compute in H. discriminate.
Qed.

(** C4 as stated fails: on an empty struct [validateSymbol] writes the
    sixteen defaults into its argument. *)
Lemma validateSymbol_writes_into_empty_struct :
  (∅ : gmap string value) !! "height" = None /\
  (validateSymbol demo ∅).1 !! "height" = Some (VNum (Int 50)) /\
  size (validateSymbol demo ∅).1 = 16%nat /\
  (validateSymbol demo ∅).1 <> ∅.
Proof.
  split; [vm_compute; reflexivity|]. split; [vm_compute; reflexivity|].
  split; [vm_compute; reflexivity|].
  intros H. apply (f_equal (fun m : gmap string value => m !! "height")) in H.
  vm_compute in H. discriminate.
Qed.

(** C4 at work: the caller's [text] and [height] are kept, the missing
    [scale] appears with its default, a struct that already has every
    default is left as it is, and a shadowed [hasOwnProperty] throws. *)
Lemma validateSymbol_mutates_only_missing_defaults_witness :
  let s : gmap string value := <["text" := VStr "hi"]> (<["height" := VNum (Int 80)]> ∅) in
  let bad : gmap string value := <["hasOwnProperty" := VNum (Int 5)]> ∅ in
  s !! "hasOwnProperty" = None /\
  (validateSymbol demo s).2 = Normal tt /\
  (validateSymbol demo s).1 !! "text" = Some (VStr "hi") /\
  (validateSymbol demo s).1 !! "height" = Some (VNum (Int 80)) /\
  (validateSymbol demo s).1 !! "scale" = Some (VNum (Int 1)) /\
  is_Some (bad !! "hasOwnProperty") /\
  validateSymbol demo bad = (bad, Throw (not_a_function "symbologyStruct.hasOwnProperty")).
Proof.
  intros s bad.
  assert (Hfree : s !! "hasOwnProperty" = None) by (vm_compute; reflexivity).
  assert (Hbad : is_Some (bad !! "hasOwnProperty")) by (vm_compute; eauto).
  pose proof (proj2 (validateSymbol_mutates_only_missing_defaults demo s) Hfree)
    as (Hnormal & Hlookup & _).
  split; [exact Hfree|]. split; [exact Hnormal|].
  split; [exact (Hlookup "text")|]. split; [exact (Hlookup "height")|].
  split; [exact (Hlookup "scale")|]. split; [exact Hbad|].
  exact (proj1 (validateSymbol_mutates_only_missing_defaults demo bad) Hbad).
Defined.

(** C5 on the code: the colour "red" is no 6-hex-digit RGB value, yet no
    error is raised; the encoder is called with it and the promise
    resolves. *)
Theorem malformed_color_reaches_encoder :
  let r := createStream demo (<["foregroundColor" := VStr "red"]> ∅) (VStr "HELLO") None in
  map a_foregroundColor (native_calls r) = [VStr "red"] /\
  exists o, completion r = Normal (Resolved o).
Proof.
  cbv zeta. split; [vm_compute; reflexivity|]. eexists. vm_compute. reflexivity.
Qed.

(** C6 at work: an empty struct, PNG output. *)
Lemma default_height_is_forwarded_witness :
  (∅ : gmap string value) !! "height" = None /\
  (∅ : gmap string value) !! "hasOwnProperty" = None /\
  exists args,
    native_calls (callManagedLibrary demo ∅ (VStr "HELLO") "png" VUndef) = [args] /\
    a_height args = VNum (Int 50).
Proof.
  assert (Hnone : (∅ : gmap string value) !! "height" = None)
    by (vm_compute; reflexivity).
  assert (Hfree : (∅ : gmap string value) !! "hasOwnProperty" = None)
    by (vm_compute; reflexivity).
  split; [exact Hnone|]. split; [exact Hfree|].
  apply (proj2 (default_height_is_forwarded demo ∅ (VStr "HELLO") "png" VUndef Hnone)).
  - exact (proj1 demo_output_types).
  - exact Hfree.
  - intros _. vm_compute. reflexivity.
Defined.


(** C7 at work: a 2x1 bitmap; the second pixel takes bytes 3, 4, 5. *)
Lemma pngRender_reads_rgb_row_major_witness :
  let bitmap := [ VNum (Int 10); VNum (Int 11); VNum (Int 12);
                  VNum (Int 20); VNum (Int 21); VNum (Int 22) ] in
  (1 < 2)%nat /\ (0 < 1)%nat /\
  getAt (pngRender bitmap 2 1) 1 0 =
  Some {| red := VNum (Int 20); green := VNum (Int 21); blue := VNum (Int 22);
          alpha := VNum (Int 200) |}.
Proof.
  intros bitmap.
  assert (Hx : (1 < 2)%nat) by lia.
  assert (Hy : (0 < 1)%nat) by lia.
  split; [exact Hx|]. split; [exact Hy|].
  exact (proj2 (pngRender_reads_rgb_row_major bitmap 2 1) 1%nat 0%nat Hx Hy).
Defined.

(** C8 at work: "gif" is not an output type. *)
Lemma invalid_output_type_throws_witness :
  ("gif" ∉ Output_values demo) /\
  createStream demo ∅ (VStr "HELLO") (Some "gif") =
  Exec ∅ [] (Throw (Error "Invalid output type: gif")).
Proof.
  pose proof (proj1 (proj2 (proj2 demo_output_types))) as Hgif.
  split; [exact Hgif|].
  exact (proj2 (invalid_output_type_throws demo ∅ (VStr "HELLO") "gif" VUndef Hgif)).
Defined.

(** C9 at work: a caller's height of 80 survives, the missing scale is
    filled in with its default, and nothing but a default is assigned. *)
Lemma validateSymbol_keeps_present_and_is_idempotent_witness :
  let s : gmap string value := <["height" := VNum (Int 80)]> ∅ in
  s !! "height" = Some (VNum (Int 80)) /\
  (validateSymbol demo s).1 !! "height" = Some (VNum (Int 80)) /\
  s !! "hasOwnProperty" = None /\
  s !! "scale" = None /\
  (validateSymbol demo s).1 !! "scale" = Some (VNum (Int 1)).
Proof.
  intros s.
  assert (Hh : s !! "height" = Some (VNum (Int 80))) by (vm_compute; reflexivity).
  assert (Hfree : s !! "hasOwnProperty" = None) by (vm_compute; reflexivity).
  assert (Hs : s !! "scale" = None) by (vm_compute; reflexivity).
  pose proof (validateSymbol_keeps_present_and_is_idempotent demo s)
    as (Hkeep & _ & Hfill & _).
  split; [exact (Hh)|]. split; [exact (Hkeep _ _ Hh)|].
  split; [exact Hfree|]. split; [exact Hs|]. exact (Hfill Hfree _ Hs).
Defined.

(** C10 at work: a white pixel and a pixel read past the end of the
    bitmap both get alpha 200. *)
Lemma pngRender_alpha_is_200_witness :
  let bitmap := [ VNum (Int 255); VNum (Int 255); VNum (Int 255) ] in
  (1 < 2)%nat /\ (0 < 1)%nat /\
  exists c, getAt (pngRender bitmap 2 1) 1 0 = Some c /\ alpha c = VNum (Int 200).
Proof.
  intros bitmap.
  assert (Hx : (1 < 2)%nat) by lia.
  assert (Hy : (0 < 1)%nat) by lia.
  split; [exact Hx|]. split; [exact Hy|].
  exact (proj1 (pngRender_alpha_is_200 bitmap 2 1) 1%nat 0%nat Hx Hy).
Defined.

(** ** Further properties: file names and extensions *)

Section FileNames.

Lemma string_length_app (s t : string) :
  String.length (s +:+ t) = (String.length s + String.length t)%nat.
Proof.
  induction s as [|c s IH]; [reflexivity|].
  change (String c s +:+ t) with (String c (s +:+ t)).
  cbn [String.length]. rewrite IH. reflexivity.
Qed.

Lemma string_app_cons c (s t : string) : String c s +:+ t = String c (s +:+ t).
Proof. reflexivity. Qed.

Lemma string_app_assoc (s t u : string) : (s +:+ t) +:+ u = s +:+ (t +:+ u).
Proof. induction s as [|c s IH]; [reflexivity|]. rewrite !string_app_cons, IH. reflexivity. Qed.

Lemma replace_png_suffix_length s :
  String.length (replace_png_suffix s) = String.length s.
Proof.
  induction s as [|c r IH]; [reflexivity|].
  cbn [replace_png_suffix].
  destruct (String.eqb_spec (String c r) ".png") as [->|_]; [reflexivity|].
  cbn [String.length]. rewrite IH. reflexivity.
Qed.

Lemma replace_png_suffix_hit p :
  replace_png_suffix (p +:+ ".png") = p +:+ ".bmp".
Proof.
  induction p as [|c p IH]; [reflexivity|].
  rewrite !string_app_cons. cbn [replace_png_suffix].
  destruct (String.eqb_spec (String c (p +:+ ".png")) ".png") as [Heq|_].
  - apply (f_equal String.length) in Heq. cbn [String.length] in Heq.
    rewrite string_length_app in Heq. cbn in Heq. lia.
  - rewrite IH. reflexivity.
Qed.

Lemma replace_png_suffix_miss s :
  (forall p, s <> p +:+ ".png") -> replace_png_suffix s = s.
Proof.
  induction s as [|c r IH]; intros Hno; [reflexivity|].
  cbn [replace_png_suffix].
  destruct (String.eqb_spec (String c r) ".png") as [Heq|_].
  - exfalso. apply (Hno ""). exact Heq.
  - rewrite IH; [reflexivity|].
    intros p ->. apply (Hno (String c p)). reflexivity.
Qed.

Lemma replace_png_suffix_short s :
  (String.length s < 4)%nat -> replace_png_suffix s = s.
Proof.
  intros Hlen. apply replace_png_suffix_miss. intros p ->.
  rewrite string_length_app in Hlen. cbn in Hlen. lia.
Qed.

Lemma replace_png_suffix_never_png s p :
  replace_png_suffix s <> p +:+ ".png".
Proof.
  revert p. induction s as [|c r IH]; intros p.
  - destruct p; discriminate.
  - cbn [replace_png_suffix].
    destruct (String.eqb_spec (String c r) ".png") as [Heq|Hne].
    + intros H. pose proof (f_equal String.length H) as Hlen.
      rewrite string_length_app in Hlen. cbn in Hlen.
      destruct p; [discriminate H | cbn in Hlen; lia].
    + destruct p as [|c' p].
      * intros H. injection H as -> Hr.
        assert (Hlen : String.length r = 3%nat).
        { rewrite <- replace_png_suffix_length, Hr. reflexivity. }
        rewrite replace_png_suffix_short in Hr by lia.
        apply Hne. rewrite Hr. reflexivity.
      * rewrite string_app_cons. intros H. injection H as _ Hr.
        exact (IH p Hr).
Qed.

(** X1: the replacement that turns the PNG file name into the BMP name
    the library is given: a name ending in [.png] has that suffix (and
    nothing else) replaced by [.bmp]; any other name is left as it is;
    the outcome never ends in [.png] and has the length of the name. *)
Theorem replace_png_suffix_spec (s : string) :
  (forall p, s = p +:+ ".png" -> replace_png_suffix s = p +:+ ".bmp") /\
  ((forall p, s <> p +:+ ".png") -> replace_png_suffix s = s) /\
  (forall p, replace_png_suffix s <> p +:+ ".png") /\
  String.length (replace_png_suffix s) = String.length s.
Proof.
  split; [|split; [|split]].
  - intros p ->. apply replace_png_suffix_hit.
  - apply replace_png_suffix_miss.
  - apply replace_png_suffix_never_png.
  - apply replace_png_suffix_length.
Qed.

Lemma all_letters_dot p e : all_letters (p +:+ String "." e) = false.
Proof.
  induction p as [|c p IH]; [reflexivity|].
  rewrite string_app_cons. cbn [all_letters]. rewrite IH.
  apply andb_false_r.
Qed.

Lemma match_extension_hit p e :
  e <> "" -> all_letters e = true ->
  match_extension (p +:+ String "." e) = Some e.
Proof.
  intros Hne Hall. induction p as [|c p IH].
  - change ("" +:+ String "." e) with (String "." e). cbn [match_extension].
    change (Ascii.eqb "." ".") with true. rewrite Hall.
    destruct (String.eqb_spec e "") as [->|_]; [contradiction | reflexivity].
  - rewrite string_app_cons. cbn [match_extension].
    rewrite all_letters_dot, andb_false_r. exact IH.
Qed.

Lemma match_extension_sound s e :
  match_extension s = Some e ->
  exists p, s = p +:+ String "." e /\ e <> "" /\ all_letters e = true.
Proof.
  induction s as [|c r IH]; [discriminate|].
  cbn [match_extension].
  destruct (Ascii.eqb_spec c ".") as [->|_]; cbn [andb].
  - destruct (String.eqb_spec r "") as [->|Hne]; cbn [negb andb].
    + discriminate.
    + destruct (all_letters r) eqn:Hall.
      * intros [= <-]. exists "". repeat split; assumption.
      * intros H. destruct (IH H) as (p & -> & He & Ha).
        exists (String "." p). repeat split; assumption.
  - intros H. destruct (IH H) as (p & -> & He & Ha).
    exists (String c p). repeat split; assumption.
Qed.

(** X2: the extension [exp.createFile] reads off a file name is the
    run of letters after the last dot: the match succeeds with [e]
    exactly when the name is some prefix, a dot, and the non-empty run of
    letters [e]; a name without a dot, ending in a dot, or with a digit
    or other sign after its last dot gives no match. *)
Theorem match_extension_spec (s e : string) :
  match_extension s = Some e <->
  exists p, s = p +:+ String "." e /\ e <> "" /\ all_letters e = true.
Proof.
  split.
  - apply match_extension_sound.
  - intros (p & -> & Hne & Hall). apply match_extension_hit; assumption.
Qed.

End FileNames.

(** ** Further properties: what reaches the encoder *)

Section Arguments.

Context (E : binding).

(** A property the output block does not write is read from the
    caller's struct, or from [defaultSymbol] when the struct lacks it. *)
Lemma validated_get (symbol : gmap string value) ty k :
  k <> "fileName" -> k <> "outputOptions" ->
  get (validateSymbol_fill E (callManagedLibrary_output E symbol ty)) k =
  own_or symbol k (default VUndef (assoc k (defaultSymbol E))).
Proof.
  intros H1 H2. unfold get, own_or.
  rewrite validateSymbol_lookup, callManagedLibrary_output_other by assumption.
  destruct (symbol !! k); reflexivity.
Qed.

(** X3: every option the wrapper does not compute itself reaches the
    encoder exactly as the caller gave it (an own property explicitly
    set to undefined included), and as the [defaultSymbol] value when
    the caller's struct lacks it; the data reaches it unchanged.  This
    holds for every output type. *)
Theorem caller_options_reach_encoder (symbol : gmap string value) data ty st args :
  In args (native_calls (callManagedLibrary E symbol data ty st)) ->
  a_barcodeData args = data /\
  a_symbology args = own_or symbol "symbology" (VNum (Int 20)) /\
  a_height args = own_or symbol "height" (VNum (Int 50)) /\
  a_whitespaceWidth args = own_or symbol "whitespaceWidth" (VNum (Int 0)) /\
  a_borderWidth args = own_or symbol "borderWidth" (VNum (Int 0)) /\
  a_backgroundColor args = own_or symbol "backgroundColor" (VStr "ffffff") /\
  a_foregroundColor args = own_or symbol "foregroundColor" (VStr "000000") /\
  a_scale args = own_or symbol "scale" (VNum (Int 1)) /\
  a_option1 args = own_or symbol "option1" (VNum (Int (-1))) /\
  a_option2 args = own_or symbol "option2" (VNum (Int (-1))) /\
  a_option3 args = own_or symbol "option3" (VNum (Int (-1))) /\
  a_encoding args = own_or symbol "encoding" (Encoding_DATA_MODE E) /\
  a_eci args = own_or symbol "eci" (VNum (Int 0)) /\
  a_primary args = own_or symbol "primary" (VStr "").
Proof.
  intros Hin.
  destruct (callManagedLibrary_call E _ _ _ _ _ Hin) as (_ & (f & _ & ->) & _).
  split; [reflexivity|].
  repeat split;
    match goal with
    | |- ?proj (createSymbology_args _ _ _) = own_or _ ?k _ =>
        change (get (validateSymbol_fill E (callManagedLibrary_output E symbol ty)) k
                = own_or symbol k (default VUndef (assoc k (defaultSymbol E))));
        apply validated_get; discriminate
    end.
Qed.

(** X4: the two arguments the wrapper computes from the struct.  The
    human-readable text is the caller's [text] when that is truthy and
    the barcode data otherwise (so also when [text] is absent or the
    empty string); the show-text flag is 1 when the caller's
    [showHumanReadableText] is absent or truthy and 0 otherwise. *)
Theorem text_and_flag_reach_encoder (symbol : gmap string value) data ty st args :
  In args (native_calls (callManagedLibrary E symbol data ty st)) ->
  a_text args = (if truthy (get symbol "text") then get symbol "text" else data) /\
  (symbol !! "text" = None -> a_text args = data) /\
  (symbol !! "text" = Some (VStr "") -> a_text args = data) /\
  a_showHumanReadableText args =
    match symbol !! "showHumanReadableText" with
    | None => 1
    | Some v => if truthy v then 1 else 0
    end.
Proof.
  intros Hin.
  destruct (callManagedLibrary_call E _ _ _ _ _ Hin) as (_ & (f & _ & ->) & _).
  assert (Htext : a_text (createSymbology_args
                            (validateSymbol_fill E (callManagedLibrary_output E symbol ty)) data f)
                  = if truthy (get symbol "text") then get symbol "text" else data).
  { cbn [createSymbology_args a_text]. unfold JS.or.
    rewrite validated_get by discriminate.
    unfold own_or, get. destruct (symbol !! "text"); reflexivity. }
  split; [exact Htext|]. split; [|split].
  - intros Hnone. rewrite Htext. unfold get. rewrite Hnone. reflexivity.
  - intros Hempty. rewrite Htext. unfold get. rewrite Hempty. reflexivity.
  - cbn [createSymbology_args a_showHumanReadableText].
    rewrite validated_get by discriminate.
    unfold own_or. destruct (symbol !! "showHumanReadableText"); reflexivity.
Qed.

Lemma get_validateSymbol (o : gmap string value) k :
  get (validateSymbol_fill E o) k = own_or o k (default VUndef (assoc k (defaultSymbol E))).
Proof.
  unfold get, own_or. rewrite validateSymbol_lookup. destruct (o !! k); reflexivity.
Qed.

Lemma get_present (o : gmap string value) k v : o !! k = Some v -> get o k = v.
Proof. intros H. unfold get. rewrite H. reflexivity. Qed.

(** X5: the file name the encoder is given.  For PNG it is the caller's
    [fileName] (or the default out.bmp) with a final [.png] turned into
    [.bmp]; for any other output type it is made from the output type
    alone, the caller's [fileName] is ignored and is overwritten in the
    caller's struct.  In no case does the encoder see a name ending in
    [.png]. *)
Theorem fileName_reaches_encoder (symbol : gmap string value) data ty st args :
  In args (native_calls (callManagedLibrary E symbol data ty st)) ->
  (ty = Output_PNG E ->
   exists f, own_or symbol "fileName" (VStr "out.bmp") = VStr f /\
             a_fileName args = replace_png_suffix f) /\
  (ty <> Output_PNG E ->
   a_fileName args = replace_png_suffix ("out." +:+ ty) /\
   symbol_after (callManagedLibrary E symbol data ty st) !! "fileName"
     = Some (VStr ("out." +:+ ty))) /\
  (forall p, a_fileName args <> p +:+ ".png").
Proof.
  intros Hin.
  destruct (callManagedLibrary_call E _ _ _ _ _ Hin) as (Hty & (f & Hf & Hargs) & _).
  assert (Hname : a_fileName args = replace_png_suffix f)
    by (rewrite Hargs; reflexivity).
  split; [|split].
  - intros Hpng. exists f. split; [|exact Hname].
    rewrite Hpng, callManagedLibrary_output_png, get_validateSymbol in Hf.
    exact Hf.
  - intros Hne.
    pose proof (validateSymbol_present E _ _ _
                  (callManagedLibrary_output_fileName E symbol ty Hne)) as Hfile.
    rewrite (callManagedLibrary_invoked E symbol data ty st _ Hty
               (callManagedLibrary_call_free E _ _ _ _ _ Hin) Hf).
    cbn [symbol_after]. split; [|exact Hfile].
    rewrite (get_present _ _ _ Hfile) in Hf.
    injection Hf as <-. exact Hname.
  - intros p. rewrite Hname. apply replace_png_suffix_never_png.
Qed.


(** One call with an output type other than PNG: what it forwards as
    outputOptions is also what it leaves in the caller's struct, which
    still does not shadow [hasOwnProperty]. *)
Lemma callManagedLibrary_non_png_step (symbol : gmap string value) data ty st :
  ty ∈ Output_values E -> ty <> Output_PNG E ->
  symbol !! "hasOwnProperty" = None ->
  let v := if gt0 (parseInt (get symbol "outputOptions"))
           then add (get symbol "outputOptions") (VNum (Int 8))
           else VNum (Int 8) in
  (exists args, native_calls (callManagedLibrary E symbol data ty st) = [args] /\
                a_outputOptions args = v) /\
  symbol_after (callManagedLibrary E symbol data ty st) !! "outputOptions" = Some v /\
  symbol_after (callManagedLibrary E symbol data ty st) !! "hasOwnProperty" = None.
Proof.
  intros Hty Hne Hfree v.
  destruct (callManagedLibrary_reaches_native E symbol ty) as [f Hf];
    [intros; contradiction|].
  rewrite (callManagedLibrary_invoked E symbol data ty st f Hty Hfree Hf).
  cbn [native_calls symbol_after].
  pose proof (validateSymbol_present E _ _ _
                (callManagedLibrary_output_outputOptions E symbol ty Hne)) as Hopt.
  split; [|split; [exact Hopt|]].
  - eexists. split; [reflexivity|].
    cbn [createSymbology_args a_outputOptions].
    apply get_present. exact Hopt.
  - rewrite validateSymbol_fill_free, callManagedLibrary_output_method. exact Hfree.
Qed.

Lemma outputOptions_step_value (symbol : gmap string value) n :
  own_or symbol "outputOptions" (VNum (Int 0)) = VNum (Int n) ->
  Z.max n 0 + 8 < 2 ^ 53 ->
  (if gt0 (parseInt (get symbol "outputOptions"))
   then add (get symbol "outputOptions") (VNum (Int 8))
   else VNum (Int 8)) = VNum (Int (Z.max n 0 + 8)).
Proof.
  unfold own_or, get. destruct (symbol !! "outputOptions") as [v|].
  - intros -> Hsafe. cbn [default from_option id]. rewrite parseInt_number. cbn [gt0].
    destruct (Z.ltb_spec 0 n).
    + cbn [add ToNumber_nonstring num_add].
      rewrite round_double_safe by lia. do 2 f_equal. lia.
    + do 2 f_equal. lia.
  - intros [= <-] _. reflexivity.
Qed.

Lemma callManagedLibrary_after_outputOptions (symbol : gmap string value) data ty n k :
  ty ∈ Output_values E -> ty <> Output_PNG E ->
  symbol !! "hasOwnProperty" = None ->
  own_or symbol "outputOptions" (VNum (Int 0)) = VNum (Int n) ->
  Z.max n 0 + 8 * Z.of_nat k < 2 ^ 53 ->
  callManagedLibrary_after E k symbol data ty !! "hasOwnProperty" = None /\
  own_or (callManagedLibrary_after E k symbol data ty) "outputOptions" (VNum (Int 0)) =
  VNum (Int (match k with O => n | S _ => Z.max n 0 + 8 * Z.of_nat k end)).
Proof.
  intros Hty Hne Hfree Hn. induction k as [|k IH]; intros Hsafe; [split; assumption|].
  destruct IH as [IHfree IH]; [lia|].
  cbn [callManagedLibrary_after].
  destruct (callManagedLibrary_non_png_step
              (callManagedLibrary_after E k symbol data ty) data ty VUndef Hty Hne IHfree)
    as (_ & Hafter & Hfree').
  split; [exact Hfree'|].
  cbn zeta in Hafter. rewrite (outputOptions_step_value _ _ IH) in Hafter
    by (destruct k; lia).
  unfold own_or at 1. rewrite Hafter. do 2 f_equal.
  destruct k; lia.
Qed.

(** X7: calls with an output type other than PNG keep adding to the
    caller's struct.  On a struct that does not shadow
    [hasOwnProperty] and whose outputOptions is the integer n (or is
    absent: n = 0), the call number k+1 on the same object forwards
    max(n, 0) + 8*(k+1), as long as that stays below 2^53. *)
Theorem non_png_calls_accumulate (symbol : gmap string value) data ty st n k :
  ty ∈ Output_values E -> ty <> Output_PNG E ->
  symbol !! "hasOwnProperty" = None ->
  own_or symbol "outputOptions" (VNum (Int 0)) = VNum (Int n) ->
  Z.max n 0 + 8 * (Z.of_nat k + 1) < 2 ^ 53 ->
  exists args,
    native_calls
      (callManagedLibrary E (callManagedLibrary_after E k symbol data ty) data ty st)
      = [args] /\
    a_outputOptions args = VNum (Int (Z.max n 0 + 8 * (Z.of_nat k + 1))).
Proof.
  intros Hty Hne Hfree Hn Hsafe.
  destruct (callManagedLibrary_after_outputOptions symbol data ty n k Hty Hne Hfree Hn)
    as [Hkfree Hk]; [lia|].
  destruct (callManagedLibrary_non_png_step
              (callManagedLibrary_after E k symbol data ty) data ty st Hty Hne Hkfree)
    as [(args & Hcalls & Hopt) _].
  exists args. split; [exact Hcalls|].
  rewrite Hopt, (outputOptions_step_value _ _ Hk) by (destruct k; lia).
  do 2 f_equal. destruct k; lia.
Qed.

End Arguments.

(** ** Further properties: [pngRender] *)

Section RenderMore.

Local Open Scope nat_scope.

Lemma pngRender_pixel_dims bitmap y st x :
  img_width (pngRender_pixel bitmap y st x).1 = img_width st.1 /\
  img_height (pngRender_pixel bitmap y st x).1 = img_height st.1.
Proof. destruct st as [img i]. split; reflexivity. Qed.

Lemma pngRender_row_dims bitmap w st y :
  img_width (pngRender_row bitmap w st y).1 = img_width st.1 /\
  img_height (pngRender_row bitmap w st y).1 = img_height st.1.
Proof.
  unfold pngRender_row. generalize (seq 0 w). intros l. revert st.
  induction l as [|x l IH]; intros st; [split; reflexivity|].
  cbn [fold_left]. destruct (IH (pngRender_pixel bitmap y st x)) as [-> ->].
  apply pngRender_pixel_dims.
Qed.

Lemma pngRender_rows_dims bitmap w l st :
  img_width (fold_left (pngRender_row bitmap w) l st).1 = img_width st.1 /\
  img_height (fold_left (pngRender_row bitmap w) l st).1 = img_height st.1.
Proof.
  revert st. induction l as [|y l IH]; intros st; [split; reflexivity|].
  cbn [fold_left]. destruct (IH (pngRender_row bitmap w st y)) as [-> ->].
  apply pngRender_row_dims.
Qed.

Lemma pngRender_dims bitmap w h :
  img_width (pngRender bitmap w h) = w /\ img_height (pngRender bitmap w h) = h.
Proof.
  unfold pngRender, pngRender_loop.
  destruct (pngRender_rows_dims bitmap w (seq 0 h) (createImage w h, 0)) as [-> ->].
  split; reflexivity.
Qed.

Lemma image_ext (a b : image) :
  img_width a = img_width b -> img_height a = img_height b ->
  (forall x y, getAt a x y = getAt b x y) -> a = b.
Proof.
  destruct a as [wa ha pa], b as [wb hb pb]. unfold getAt. cbn.
  intros -> -> Hpx. f_equal. apply map_eq. intros [x y]. apply Hpx.
Qed.

Lemma index_take (l : list value) n i : i < n -> index (take n l) i = index l i.
Proof. intros H. unfold index. rewrite lookup_take_lt by exact H. reflexivity. Qed.

Lemma color_at_take bitmap n i : i + 2 < n -> color_at (take n bitmap) i = color_at bitmap i.
Proof.
  intros H. unfold color_at. rewrite !index_take by lia. reflexivity.
Qed.

Lemma pixel_index_bound w h x y : x < w -> y < h -> 3 * (y * w + x) + 2 < 3 * (w * h).
Proof. intros Hx Hy. nia. Qed.

(** X8: [pngRender] looks at the first 3*width*height entries of the
    bitmap only: two bitmaps that agree there give the same image,
    whatever follows, and a bitmap may be cut to that length. *)
Theorem pngRender_reads_only_the_frame (b1 b2 : list value) (width height : nat) :
  take (3 * (width * height)) b1 = take (3 * (width * height)) b2 ->
  pngRender b1 width height = pngRender b2 width height.
Proof.
  intros Htake.
  destruct (pngRender_dims b1 width height) as [Hw1 Hh1].
  destruct (pngRender_dims b2 width height) as [Hw2 Hh2].
  apply image_ext; [congruence | congruence |].
  intros x y.
  rewrite (proj2 (pngRender_loop_spec b1 width height)).
  rewrite (proj2 (pngRender_loop_spec b2 width height)).
  destruct (decide (y < height /\ x < width)) as [[Hy Hx]|_]; [|reflexivity].
  pose proof (pixel_index_bound width height x y Hx Hy) as Hb.
  rewrite <- (color_at_take b1 _ _ Hb), <- (color_at_take b2 _ _ Hb), Htake.
  reflexivity.
Qed.

(** X9: the image [pngRender] returns has the requested width and
    height, and a position holds a colour exactly when it lies inside
    them: nothing is written off the image, no position inside is
    skipped.  With a width or height of 0 nothing is written at all. *)
Theorem pngRender_footprint (bitmap : list value) (width height : nat) :
  img_width (pngRender bitmap width height) = width /\
  img_height (pngRender bitmap width height) = height /\
  (forall x y, is_Some (getAt (pngRender bitmap width height) x y) <->
               x < width /\ y < height) /\
  (width = 0 \/ height = 0 -> pixels (pngRender bitmap width height) = ∅).
Proof.
  destruct (pngRender_dims bitmap width height) as [Hw Hh].
  pose proof (proj2 (pngRender_loop_spec bitmap width height)) as Hpx.
  split; [exact Hw|]. split; [exact Hh|]. split.
  - intros x y. rewrite Hpx.
    destruct (decide (y < height /\ x < width)) as [[Hy Hx]|Hno].
    + split; [intros _; split; assumption | intros _; eauto].
    + split; [intros [c Hc]; discriminate | intros [Hx Hy]; exfalso; apply Hno; auto].
  - intros Hzero. apply map_eq. intros [x y].
    change (getAt (pngRender bitmap width height) x y = (∅ : gmap (nat * nat) color) !! (x, y)).
    rewrite Hpx, lookup_empty.
    destruct (decide (y < height /\ x < width)) as [[Hy Hx]|_]; [lia | reflexivity].
Qed.

(** X10: [pngRender] never fails on a bitmap of the wrong length.  A
    channel whose index lies inside the bitmap is the entry found there;
    a pixel whose first index lies past the end of the bitmap gets
    undefined for red, green and blue, and still alpha 200. *)
Theorem pngRender_bitmap_bounds (bitmap : list value) (width height x y : nat) :
  x < width -> y < height ->
  (3 * (width * height) <= length bitmap ->
   exists r g b,
     bitmap !! (3 * (y * width + x)) = Some r /\
     bitmap !! (3 * (y * width + x) + 1) = Some g /\
     bitmap !! (3 * (y * width + x) + 2) = Some b /\
     getAt (pngRender bitmap width height) x y =
       Some {| red := r; green := g; blue := b; alpha := VNum (Int 200) |}) /\
  (length bitmap <= 3 * (y * width + x) ->
   getAt (pngRender bitmap width height) x y =
     Some {| red := VUndef; green := VUndef; blue := VUndef; alpha := VNum (Int 200) |}).
Proof.
  intros Hx Hy.
  pose proof (proj2 (pngRender_loop_spec bitmap width height) x y) as Hpx.
  destruct (decide (y < height /\ x < width)) as [_|Hno]; [|exfalso; apply Hno; auto].
  pose proof (pixel_index_bound width height x y Hx Hy) as Hb.
  split.
  - intros Hlen.
    destruct (lookup_lt_is_Some_2 bitmap (3 * (y * width + x)) ltac:(lia)) as [r Hr].
    destruct (lookup_lt_is_Some_2 bitmap (3 * (y * width + x) + 1) ltac:(lia)) as [g Hg].
    destruct (lookup_lt_is_Some_2 bitmap (3 * (y * width + x) + 2) ltac:(lia)) as [b Hb'].
    exists r, g, b. repeat (split; [assumption|]).
    rewrite Hpx. unfold color_at, index. rewrite Hr, Hg, Hb'. reflexivity.
  - intros Hlen. rewrite Hpx. unfold color_at, index.
    rewrite !lookup_ge_None_2 by lia. reflexivity.
Qed.

End RenderMore.

(** ** Further properties: [exp.createStream] and [exp.createFile] *)

Section Files.

Context (E : binding) (fs : storage).

(** X11: whenever [exp.createStream] resolves for the PNG output type
    (given, or left out), the [data] it resolves with is a string that
    starts with the PNG data-URI header. *)
Theorem createStream_png_is_data_uri (symbol : gmap string value) data oty o :
  default (Output_PNG E) oty = Output_PNG E ->
  completion (createStream E symbol data oty) = Normal (Resolved o) ->
  exists b64, o !! "data" = Some (Prim (VStr ("data:image/png;base64," +:+ b64))).
Proof.
  intros Hty Hres. unfold createStream in Hres. cbv zeta in Hres.
  rewrite Hty in Hres.
  destruct (callManagedLibrary_cases E symbol data (Output_PNG E) (VBool true))
    as [(e & S' & Hcall)|(f & _ & _ & _ & Hcall)];
    rewrite Hcall in Hres; cbn [completion] in Hres; [discriminate|].
  match type of Hres with
  | context [callManagedLibrary_settle ?r] => set (res := r) in *
  end.
  destruct (settle_cases res) as [(_ & o1 & Hs & Ho1)|(_ & o1 & Hs & _)];
    rewrite Hs in Hres; cbn [completion] in Hres; [|discriminate].
  pose proof (createStream_then_png E res o1 _ Ho1) as Hthen.
  destruct (pngRender_data (encodedData res) (width res) (height res)) as [img|e].
  - destruct (pack_base64 E img) as [chunks|].
    + destruct Hthen as (o' & Hthen & Ho'). rewrite Hthen in Hres.
      injection Hres as <-. destruct Ho' as (_ & Hdata & _). eauto.
    + rewrite Hthen in Hres. discriminate.
  - rewrite Hthen in Hres. discriminate.
Qed.

Lemma carries_summary_delete o res d :
  carries_output o res d -> carries_summary (delete "data" o) res.
Proof.
  intros (Hdom & _ & Hm & Hc & Hw & Hh). unfold carries_summary.
  rewrite dom_delete_L, Hdom, lookup_delete_eq.
  rewrite !lookup_delete_ne by discriminate.
  split; [|repeat split; assumption].
  unfold resolved_keys. vm_compute. reflexivity.
Qed.

(** The handler of [exp.createFile] on the object [callManagedLibrary]
    resolved with. *)
Lemma createFile_then_other (S : gmap string value) ty o res d :
  carries_output o res d -> ty <> Output_PNG E ->
  createFile_then E fs S ty o =
  match writeFileSync fs (get S "fileName") d with
  | Some err => ([], RejectedWith err)
  | None => ([(get S "fileName", WData d)], Resolved (delete "data" o))
  end.
Proof.
  intros (_ & Hd & _) Hne. unfold createFile_then, field.
  destruct (String.eqb_spec ty (Output_PNG E)); [contradiction|].
  rewrite Hd. reflexivity.
Qed.

Lemma createFile_then_png (S : gmap string value) o res d :
  carries_output o res d ->
  createFile_then E fs S (Output_PNG E) o =
  match pngRender_data d (width res) (height res) with
  | Throw e => ([], RejectedWith e)
  | Normal img =>
      match writeImage fs img (get S "fileName") with
      | None => ([], Pending)
      | Some (Some err) => ([], RejectedWith err)
      | Some None => ([(get S "fileName", WImage img)], Resolved (delete "data" o))
      end
  end.
Proof.
  intros (_ & Hd & _ & _ & Hw & Hh). unfold createFile_then, field.
  rewrite String.eqb_refl, Hd, Hw, Hh. cbn [default from_option id].
  rewrite !Nat2Z.id. reflexivity.
Qed.

(** How [exp.createFile] goes once an output type has been read off
    the file name and the native function has been reached. *)
Lemma createFile_reached (symbol : gmap string value) data ty f :
  createFile_outputType symbol = Some ty ->
  ty ∈ Output_values E ->
  symbol !! "hasOwnProperty" = None ->
  get (validateSymbol_fill E (callManagedLibrary_output E symbol ty)) "fileName" = VStr f ->
  let S := validateSymbol_fill E (callManagedLibrary_output E symbol ty) in
  let args := createSymbology_args S data f in
  let res := symbology E "createStream" args in
  f_symbol_after (createFile E fs symbol data) = S /\
  f_native_calls (createFile E fs symbol data) = [args] /\
  (code res <= 2 ->
   exists o,
     carries_output o res (encodedData res) /\
     f_writes (createFile E fs symbol data) = (createFile_then E fs S ty o).1 /\
     f_completion (createFile E fs symbol data) = Normal (createFile_then E fs S ty o).2) /\
  (3 <= code res ->
   f_writes (createFile E fs symbol data) = [] /\
   exists o, f_completion (createFile E fs symbol data) = Normal (Rejected o) /\
             carries_error o res).
Proof.
  intros Hot Hty Hfree Hf S args res.
  unfold createFile. rewrite Hot.
  rewrite (callManagedLibrary_invoked E symbol data ty VUndef f Hty Hfree Hf).
  fold S. fold args. fold res. cbn [completion symbol_after native_calls].
  destruct (settle_cases res) as [(Hc & o & Hs & Ho)|(Hc & o & Hs & Ho)]; rewrite Hs.
  - split; [reflexivity|]. split; [reflexivity|]. split; [|intros Hc'; lia].
    intros _. exists o. split; [exact Ho|]. split; reflexivity.
  - split; [reflexivity|]. split; [reflexivity|].
    split; [intros Hc'; lia|].
    intros _. split; [reflexivity|]. eauto.
Qed.

End Files.

Section CreateFile.

Context (E : binding) (fs : storage).

Lemma createFile_outputType_ext (symbol : gmap string value) f e :
  symbol !! "fileName" = Some (VStr f) -> match_extension f = Some e ->
  createFile_outputType symbol = Some (toLowerCase e).
Proof. intros Hf He. unfold createFile_outputType. rewrite Hf, He. reflexivity. Qed.

(** X12: [exp.createFile] throws before anything is done (no native
    call, no file written, the symbol struct untouched) in two cases.
    When no extension can be read off [fileName] (the property is
    absent, although [defaultSymbol] has one; it is not a string; or the
    name has no run of letters after a last dot) the error is the
    invalid-file-extension one.  When an extension is read but its
    lower-case form is no output type the error is the
    invalid-output-type one of [callManagedLibrary]. *)
Theorem createFile_refuses_file_name (symbol : gmap string value) data :
  (symbol !! "fileName" = None \/
   (exists v, symbol !! "fileName" = Some v /\ forall f, v <> VStr f) \/
   (exists f, symbol !! "fileName" = Some (VStr f) /\ match_extension f = None) ->
   createFile E fs symbol data = FileExec symbol [] [] (Throw createFile_error)) /\
  (forall f e,
     symbol !! "fileName" = Some (VStr f) -> match_extension f = Some e ->
     toLowerCase e ∉ Output_values E ->
     createFile E fs symbol data =
     FileExec symbol [] []
       (Throw (Error ("Invalid output type: " +:+ toLowerCase e)))).
Proof.
  split.
  - intros Hbad.
    assert (Hnone : createFile_outputType symbol = None).
    { unfold createFile_outputType.
      destruct Hbad as [->|[(v & -> & Hv)|(f & -> & ->)]]; [reflexivity| |reflexivity].
      destruct v; try reflexivity. exfalso. eapply Hv. reflexivity. }
    unfold createFile. rewrite Hnone. reflexivity.
  - intros f e Hf He Hty. unfold createFile.
    rewrite (createFile_outputType_ext symbol f e Hf He).
    rewrite (callManagedLibrary_invalid E symbol data _ VUndef Hty). reflexivity.
Qed.

(** X13: for a file name whose extension is an output type other than
    PNG, on a struct that does not shadow [hasOwnProperty],
    [exp.createFile] does not write to the name the caller gave:
    [callManagedLibrary] has overwritten [fileName] in the struct, so
    the encoder's data goes to out.<type>, whatever directory and base
    name the caller asked for.  This happens when the encoder returns a
    code of at most 2 and [fs.writeFileSync] accepts the data, and the
    promise then resolves with message, code, width and height, without
    data; a write that throws rejects with its error, and a code of at
    least 3 rejects with message and code, nothing being written. *)
Theorem createFile_other_type_writes_out_file (symbol : gmap string value) data f e :
  symbol !! "fileName" = Some (VStr f) -> match_extension f = Some e ->
  toLowerCase e ∈ Output_values E -> toLowerCase e <> Output_PNG E ->
  symbol !! "hasOwnProperty" = None ->
  let path := "out." +:+ toLowerCase e in
  let r := createFile E fs symbol data in
  exists args,
    f_native_calls r = [args] /\
    a_fileName args = replace_png_suffix path /\
    f_symbol_after r !! "fileName" = Some (VStr path) /\
    let res := symbology E "createStream" args in
    (code res <= 2 -> writeFileSync fs (VStr path) (encodedData res) = None ->
     f_writes r = [(VStr path, WData (encodedData res))] /\
     exists o, f_completion r = Normal (Resolved o) /\ carries_summary o res) /\
    (code res <= 2 -> forall err,
     writeFileSync fs (VStr path) (encodedData res) = Some err ->
     f_writes r = [] /\ f_completion r = Normal (RejectedWith err)) /\
    (3 <= code res ->
     f_writes r = [] /\
     exists o, f_completion r = Normal (Rejected o) /\ carries_error o res).
Proof.
  intros Hf He Hty Hne Hfree path r.
  pose proof (createFile_outputType_ext symbol f e Hf He) as Hot.
  pose proof (validateSymbol_present E _ _ _
                (callManagedLibrary_output_fileName E symbol _ Hne)) as Hfile.
  pose proof (get_present _ _ _ Hfile) as Hget.
  destruct (createFile_reached E fs symbol data _ _ Hot Hty Hfree Hget)
    as (Hafter & Hcalls & Hok & Hrej).
  eexists. split; [exact Hcalls|]. split; [reflexivity|].
  split; [unfold r; rewrite Hafter; exact Hfile|].
  cbv zeta. split; [|split].
  - intros Hc Hfs. unfold path in Hfs. destruct (Hok Hc) as (o & Ho & Hw & Hcompl).
    rewrite (createFile_then_other E fs _ _ _ _ _ Ho Hne), Hget in Hw, Hcompl.
    rewrite Hfs in Hw, Hcompl.
    split; [exact Hw|]. eexists. split; [exact Hcompl|].
    exact (carries_summary_delete _ _ _ Ho).
  - intros Hc err Hfs. unfold path in Hfs. destruct (Hok Hc) as (o & Ho & Hw & Hcompl).
    rewrite (createFile_then_other E fs _ _ _ _ _ Ho Hne), Hget in Hw, Hcompl.
    rewrite Hfs in Hw, Hcompl.
    split; [exact Hw | exact Hcompl].
  - exact Hrej.
Qed.

(** X14: for a file name whose extension is the PNG output type, on a
    struct that does not shadow [hasOwnProperty], [exp.createFile]
    hands the encoder the name with a final [.png] turned into [.bmp].
    When the encoder returns a code of at most 2 and data that can be
    indexed, the image rendered from it is handed to [image.writeImage]
    under the caller's own file name: if that succeeds the image is
    written and the promise resolves with message, code, width and
    height, without data; if it reports an error the promise rejects
    with it; if it never calls back the promise stays pending.  A code
    of at least 3 rejects with message and code, nothing being
    written. *)
Theorem createFile_png_writes_image (symbol : gmap string value) data f e :
  symbol !! "fileName" = Some (VStr f) -> match_extension f = Some e ->
  toLowerCase e = Output_PNG E -> Output_PNG E ∈ Output_values E ->
  symbol !! "hasOwnProperty" = None ->
  let r := createFile E fs symbol data in
  exists args,
    f_native_calls r = [args] /\
    a_fileName args = replace_png_suffix f /\
    let res := symbology E "createStream" args in
    (code res <= 2 ->
     forall bitmap, indexed (encodedData res) = Some bitmap ->
       let img := pngRender bitmap (width res) (height res) in
       (writeImage fs img (VStr f) = Some None ->
        f_writes r = [(VStr f, WImage img)] /\
        exists o, f_completion r = Normal (Resolved o) /\ carries_summary o res) /\
       (forall err, writeImage fs img (VStr f) = Some (Some err) ->
        f_writes r = [] /\ f_completion r = Normal (RejectedWith err)) /\
       (writeImage fs img (VStr f) = None ->
        f_writes r = [] /\ f_completion r = Normal Pending)) /\
    (3 <= code res ->
     f_writes r = [] /\
     exists o, f_completion r = Normal (Rejected o) /\ carries_error o res).
Proof.
  intros Hf He Hpng Hty Hfree r.
  pose proof (createFile_outputType_ext symbol f e Hf He) as Hot.
  rewrite Hpng in Hot.
  assert (Hget : get (validateSymbol_fill E
                        (callManagedLibrary_output E symbol (Output_PNG E)))
                   "fileName" = VStr f).
  { rewrite callManagedLibrary_output_png.
    apply get_present, validateSymbol_present. exact Hf. }
  destruct (createFile_reached E fs symbol data _ _ Hot Hty Hfree Hget)
    as (_ & Hcalls & Hok & Hrej).
  eexists. split; [exact Hcalls|]. split; [reflexivity|].
  cbv zeta. split; [|exact Hrej].
  intros Hc bitmap Hbitmap.
  destruct (Hok Hc) as (o & Ho & Hw & Hcompl).
  rewrite (createFile_then_png E fs _ _ _ _ Ho), Hget in Hw, Hcompl.
  rewrite (pngRender_data_indexed _ _ _ _ Hbitmap) in Hw, Hcompl.
  split; [|split].
  - intros Hfs. rewrite Hfs in Hw, Hcompl.
    split; [exact Hw|]. eexists. split; [exact Hcompl|].
    exact (carries_summary_delete _ _ _ Ho).
  - intros err Hfs. rewrite Hfs in Hw, Hcompl. split; [exact Hw | exact Hcompl].
  - intros Hfs. rewrite Hfs in Hw, Hcompl. split; [exact Hw | exact Hcompl].
Qed.

(** X15: [exp.createFile] writes at most one file, and writes it only
    after the encoder has been called once and has returned a code of
    at most 2; the path written is the [fileName] the struct holds when
    the call is over, and the write went through. *)
Theorem createFile_writes_only_on_success (symbol : gmap string value) data w :
  In w (f_writes (createFile E fs symbol data)) ->
  f_writes (createFile E fs symbol data) = [w] /\
  w.1 = get (f_symbol_after (createFile E fs symbol data)) "fileName" /\
  write_succeeds fs w /\
  exists args,
    f_native_calls (createFile E fs symbol data) = [args] /\
    code (symbology E "createStream" args) <= 2.
Proof.
  intros Hin.
  destruct (createFile_outputType symbol) as [ty|] eqn:Hot.
  2:{ unfold createFile in Hin. rewrite Hot in Hin. destruct Hin. }
  destruct (callManagedLibrary_cases E symbol data ty VUndef)
    as [(err & S' & Hcall)|(f & Hty & Hfree & Hf & _)].
  { unfold createFile in Hin. rewrite Hot, Hcall in Hin. destruct Hin. }
  destruct (createFile_reached E fs symbol data ty f Hot Hty Hfree Hf)
    as (Hafter & Hcalls & Hok & Hrej).
  rewrite Hafter, Hf.
  match type of Hcalls with
  | _ = [?a] => set (args := a) in *
  end.
  destruct (Z.le_gt_cases (code (symbology E "createStream" args)) 2) as [Hc|Hc].
  2:{ destruct (Hrej ltac:(lia)) as [Hw _]. rewrite Hw in Hin. destruct Hin. }
  destruct (Hok Hc) as (o & Ho & Hw & _). rewrite Hw in Hin |- *.
  assert (Hgoal : forall ws : list (value * written),
            In w ws ->
            (ws = [] \/ exists wr, ws = [(VStr f, wr)] /\ write_succeeds fs (VStr f, wr)) ->
            ws = [w] /\ w.1 = VStr f /\ write_succeeds fs w).
  { intros ws Hws [->|(wr & -> & Hsucc)]; [destruct Hws|].
    destruct Hws as [<-|[]]. split; [reflexivity|]. split; [reflexivity | exact Hsucc]. }
  destruct (Hgoal _ Hin) as (H1 & H2 & H3).
  - destruct (decide (ty = Output_PNG E)) as [->|Hne].
    + rewrite (createFile_then_png E fs _ _ _ _ Ho), Hf.
      destruct (pngRender_data _ _ _) as [img|e]; [|left; reflexivity].
      destruct (writeImage fs img (VStr f)) as [[err|]|] eqn:Hfs;
        [left; reflexivity | | left; reflexivity].
      right. eexists. split; [reflexivity|]. exact Hfs.
    + rewrite (createFile_then_other E fs _ _ _ _ _ Ho Hne), Hf.
      destruct (writeFileSync fs (VStr f) _) as [err|] eqn:Hfs; [left; reflexivity|].
      right. eexists. split; [reflexivity|]. exact Hfs.
  - split; [exact H1|]. split; [exact H2|]. split; [exact H3|].
    exists args. split; [exact Hcalls | exact Hc].
Qed.

End CreateFile.

(** ** The further properties at concrete inputs *)

(** X1 at work. *)
Lemma replace_png_suffix_spec_witness :
  "code.png" = "code" +:+ ".png" /\
  replace_png_suffix "code.png" = "code" +:+ ".bmp" /\
  (forall p, "code.PNG" <> p +:+ ".png") /\
  replace_png_suffix "code.PNG" = "code.PNG".
Proof.
  assert (H1 : "code.png" = "code" +:+ ".png") by reflexivity.
  assert (H2 : forall p, "code.PNG" <> p +:+ ".png").
  { intros p H.
    do 5 (destruct p as [|? p]; [discriminate H | injection H as _ H]).
    apply (f_equal String.length) in H. rewrite string_length_app in H.
    cbn in H. lia. }
  split; [exact H1|].
  split; [exact (proj1 (replace_png_suffix_spec "code.png") "code" H1)|].
  split; [exact H2|].
  exact (proj1 (proj2 (replace_png_suffix_spec "code.PNG")) H2).
Defined.

(** X2 at work: only the letters after the last dot count. *)
Lemma match_extension_spec_witness :
  match_extension "/tmp/v1.2/Code.SVG" = Some "SVG".
Proof.
  apply (proj2 (match_extension_spec "/tmp/v1.2/Code.SVG" "SVG")).
  exists "/tmp/v1.2/Code".
  split; [reflexivity|]. split; [discriminate | reflexivity].
Defined.

(** X3 at work: a caller's height of 80, everything else defaulted. *)
Lemma caller_options_reach_encoder_witness :
  let s : gmap string value := <["height" := VNum (Int 80)]> ∅ in
  let args := createSymbology_args (validateSymbol_fill demo s) (VStr "HELLO") "out.bmp" in
  In args (native_calls (callManagedLibrary demo s (VStr "HELLO") "png" VUndef)) /\
  a_height args = own_or s "height" (VNum (Int 50)) /\
  a_scale args = own_or s "scale" (VNum (Int 1)).
Proof.
  intros s args.
  assert (Hin : In args (native_calls (callManagedLibrary demo s (VStr "HELLO") "png" VUndef)))
    by (vm_compute; left; reflexivity).
  pose proof (caller_options_reach_encoder demo s (VStr "HELLO") "png" VUndef args Hin)
    as (_ & _ & Hh & _ & _ & _ & _ & Hs & _).
  split; [exact Hin|]. split; [exact Hh | exact Hs].
Defined.

(** X4 at work: an empty [text] falls back to the data. *)
Lemma text_and_flag_reach_encoder_witness :
  let s : gmap string value := <["text" := VStr ""]> ∅ in
  let args := createSymbology_args (validateSymbol_fill demo s) (VStr "HELLO") "out.bmp" in
  In args (native_calls (callManagedLibrary demo s (VStr "HELLO") "png" VUndef)) /\
  s !! "text" = Some (VStr "") /\
  a_text args = VStr "HELLO".
Proof.
  intros s args.
  assert (Hin : In args (native_calls (callManagedLibrary demo s (VStr "HELLO") "png" VUndef)))
    by (vm_compute; left; reflexivity).
  assert (Ht : s !! "text" = Some (VStr "")) by (vm_compute; reflexivity).
  pose proof (text_and_flag_reach_encoder demo s (VStr "HELLO") "png" VUndef args Hin)
    as (_ & _ & Hempty & _).
  split; [exact Hin|]. split; [exact Ht | exact (Hempty Ht)].
Defined.

(** X5 at work: an SVG request forgets the caller's file name. *)
Lemma fileName_reaches_encoder_witness :
  let s : gmap string value := <["fileName" := VStr "/tmp/label.svg"]> ∅ in
  let args :=
    createSymbology_args (validateSymbol_fill demo (callManagedLibrary_output demo s "svg"))
      (VStr "HELLO") "out.svg" in
  In args (native_calls (callManagedLibrary demo s (VStr "HELLO") "svg" VUndef)) /\
  "svg" <> Output_PNG demo /\
  a_fileName args = replace_png_suffix ("out." +:+ "svg") /\
  symbol_after (callManagedLibrary demo s (VStr "HELLO") "svg" VUndef) !! "fileName"
    = Some (VStr ("out." +:+ "svg")).
Proof.
  intros s args.
  assert (Hin : In args (native_calls (callManagedLibrary demo s (VStr "HELLO") "svg" VUndef)))
    by (vm_compute; left; reflexivity).
  assert (Hne : "svg" <> Output_PNG demo) by discriminate.
  pose proof (fileName_reaches_encoder demo s (VStr "HELLO") "svg" VUndef args Hin)
    as (_ & Hsvg & _).
  split; [exact Hin|]. split; [exact Hne|]. exact (Hsvg Hne).
Defined.


(** X7 at work: the third SVG call on an empty struct forwards 24. *)
Lemma non_png_calls_accumulate_witness :
  ("svg" ∈ Output_values demo) /\ "svg" <> Output_PNG demo /\
  (∅ : gmap string value) !! "hasOwnProperty" = None /\
  own_or (∅ : gmap string value) "outputOptions" (VNum (Int 0)) = VNum (Int 0) /\
  Z.max 0 0 + 8 * (Z.of_nat 2 + 1) < 2 ^ 53 /\
  exists args,
    native_calls
      (callManagedLibrary demo (callManagedLibrary_after demo 2 ∅ (VStr "HELLO") "svg")
         (VStr "HELLO") "svg" VUndef) = [args] /\
    a_outputOptions args = VNum (Int (Z.max 0 0 + 8 * (Z.of_nat 2 + 1))).
Proof.
  pose proof (proj1 (proj2 demo_output_types)) as Hsvg.
  assert (Hne : "svg" <> Output_PNG demo) by discriminate.
  assert (Hfree : (∅ : gmap string value) !! "hasOwnProperty" = None)
    by (vm_compute; reflexivity).
  assert (Hn : own_or (∅ : gmap string value) "outputOptions" (VNum (Int 0)) = VNum (Int 0))
    by (vm_compute; reflexivity).
  assert (Hsafe : Z.max 0 0 + 8 * (Z.of_nat 2 + 1) < 2 ^ 53) by (vm_compute; reflexivity).
  split; [exact Hsvg|]. split; [exact Hne|]. split; [exact Hfree|].
  split; [exact Hn|]. split; [exact Hsafe|].
  exact (non_png_calls_accumulate demo ∅ (VStr "HELLO") "svg" VUndef 0 2
           Hsvg Hne Hfree Hn Hsafe).
Defined.

(** X8 at work: bytes after the first three do not matter to a 1x1 image. *)
Lemma pngRender_reads_only_the_frame_witness :
  let b1 := [ VNum (Int 1); VNum (Int 2); VNum (Int 3); VNum (Int 9) ] in
  let b2 := [ VNum (Int 1); VNum (Int 2); VNum (Int 3) ] in
  take (3 * (1 * 1)) b1 = take (3 * (1 * 1)) b2 /\
  pngRender b1 1 1 = pngRender b2 1 1.
Proof.
  intros b1 b2.
  assert (Ht : take (3 * (1 * 1)) b1 = take (3 * (1 * 1)) b2) by reflexivity.
  split; [exact Ht|].
  exact (pngRender_reads_only_the_frame b1 b2 1 1 Ht).
Defined.

(** X9 at work: the one position of a 1x1 image. *)
Lemma pngRender_footprint_witness :
  ((0 < 1)%nat /\ (0 < 1)%nat) /\
  is_Some (getAt (pngRender [] 1 1) 0 0) /\
  ~ is_Some (getAt (pngRender [] 1 1) 1 0).
Proof.
  assert (Hin : (0 < 1)%nat /\ (0 < 1)%nat) by lia.
  pose proof (pngRender_footprint [] 1 1) as (_ & _ & Hpos & _).
  split; [exact Hin|]. split; [exact (proj2 (Hpos 0%nat 0%nat) Hin)|].
  intros Hsome. apply (proj1 (Hpos 1%nat 0%nat)) in Hsome. lia.
Defined.

(** X10 at work: an empty bitmap gives a pixel of undefined channels. *)
Lemma pngRender_bitmap_bounds_witness :
  (0 < 1)%nat /\ (length ([] : list value) <= 3 * (0 * 1 + 0))%nat /\
  getAt (pngRender [] 1 1) 0 0 =
    Some {| red := VUndef; green := VUndef; blue := VUndef; alpha := VNum (Int 200) |}.
Proof.
  assert (Hx : (0 < 1)%nat) by lia.
  assert (Hlen : (length ([] : list value) <= 3 * (0 * 1 + 0))%nat) by (cbn; lia).
  split; [exact Hx|]. split; [exact Hlen|].
  exact (proj2 (pngRender_bitmap_bounds [] 1 1 0 0 Hx Hx) Hlen).
Defined.

(** X11 at work. *)
Lemma createStream_png_is_data_uri_witness :
  exists o b64,
    completion (createStream demo ∅ (VStr "HELLO") None) = Normal (Resolved o) /\
    o !! "data" = Some (Prim (VStr ("data:image/png;base64," +:+ b64))).
Proof.
  assert (Hres : exists o,
            completion (createStream demo ∅ (VStr "HELLO") None) = Normal (Resolved o))
    by (vm_compute; eexists; reflexivity).
  destruct Hres as [o Ho].
  destruct (createStream_png_is_data_uri demo ∅ (VStr "HELLO") None o eq_refl Ho)
    as [b64 Hb].
  exists o, b64. split; [exact Ho | exact Hb].
Defined.

(** X12 at work: no [fileName], and the default name out.bmp. *)
Lemma createFile_refuses_file_name_witness :
  (∅ : gmap string value) !! "fileName" = None /\
  createFile demo demo_fs ∅ (VStr "HELLO") = FileExec ∅ [] [] (Throw createFile_error) /\
  let s : gmap string value := <["fileName" := VStr "out.bmp"]> ∅ in
  match_extension "out.bmp" = Some "bmp" /\
  (toLowerCase "bmp" ∉ Output_values demo) /\
  createFile demo demo_fs s (VStr "HELLO") =
    FileExec s [] [] (Throw (Error ("Invalid output type: " +:+ toLowerCase "bmp"))).
Proof.
  assert (Hnone : (∅ : gmap string value) !! "fileName" = None) by (vm_compute; reflexivity).
  split; [exact Hnone|].
  split; [exact (proj1 (createFile_refuses_file_name demo demo_fs ∅ (VStr "HELLO"))
                   (or_introl Hnone))|].
  intros s.
  assert (Hf : s !! "fileName" = Some (VStr "out.bmp")) by (vm_compute; reflexivity).
  assert (He : match_extension "out.bmp" = Some "bmp") by (vm_compute; reflexivity).
  assert (Hty : toLowerCase "bmp" ∉ Output_values demo).
  { apply (bool_decide_unpack _). vm_compute. exact I. }
  split; [exact He|]. split; [exact Hty|].
  exact (proj2 (createFile_refuses_file_name demo demo_fs s (VStr "HELLO")) _ _ Hf He Hty).
Defined.

(** X13 at work: asked for /tmp/Code.SVG, the SVG text is written to
    out.svg. *)
Lemma createFile_other_type_writes_out_file_witness :
  let s : gmap string value := <["fileName" := VStr "/tmp/Code.SVG"]> ∅ in
  let r := createFile demo demo_fs s (VStr "HELLO") in
  s !! "fileName" = Some (VStr "/tmp/Code.SVG") /\
  match_extension "/tmp/Code.SVG" = Some "SVG" /\
  (toLowerCase "SVG" ∈ Output_values demo) /\
  toLowerCase "SVG" <> Output_PNG demo /\
  s !! "hasOwnProperty" = None /\
  exists args,
    f_native_calls r = [args] /\
    f_symbol_after r !! "fileName" = Some (VStr ("out." +:+ toLowerCase "SVG")) /\
    encodedData (symbology demo "createStream" args) = Prim (VStr "<svg/>") /\
    f_writes r =
      [(VStr ("out." +:+ toLowerCase "SVG"),
        WData (encodedData (symbology demo "createStream" args)))].
Proof.
  intros s r.
  assert (Hf : s !! "fileName" = Some (VStr "/tmp/Code.SVG")) by (vm_compute; reflexivity).
  assert (He : match_extension "/tmp/Code.SVG" = Some "SVG") by (vm_compute; reflexivity).
  assert (Hty : toLowerCase "SVG" ∈ Output_values demo).
  { apply (bool_decide_unpack _). vm_compute. exact I. }
  assert (Hne : toLowerCase "SVG" <> Output_PNG demo) by (vm_compute; discriminate).
  assert (Hfree : s !! "hasOwnProperty" = None) by (vm_compute; reflexivity).
  split; [exact Hf|]. split; [exact He|]. split; [exact Hty|]. split; [exact Hne|].
  split; [exact Hfree|].
  destruct (createFile_other_type_writes_out_file demo demo_fs s (VStr "HELLO") _ _
              Hf He Hty Hne Hfree) as (args & Hcalls & _ & Hafter & Hok & _).
  exists args. split; [exact Hcalls|]. split; [exact Hafter|].
  assert (Hargs : code (symbology demo "createStream" args) <= 2 /\
                  encodedData (symbology demo "createStream" args) = Prim (VStr "<svg/>")).
  { vm_compute in Hcalls. injection Hcalls as <-.
    split; [vm_compute; discriminate | vm_compute; reflexivity]. }
  destruct Hargs as [Hc Hdata]. split; [exact Hdata|].
  apply (Hok Hc). rewrite Hdata. reflexivity.
Defined.

(** X14 at work: a PNG file keeps its name. *)
Lemma createFile_png_writes_image_witness :
  let s : gmap string value := <["fileName" := VStr "label.png"]> ∅ in
  let r := createFile demo demo_fs s (VStr "HELLO") in
  let bitmap := [ VNum (Int 0); VNum (Int 0); VNum (Int 0);
                  VNum (Int 255); VNum (Int 255); VNum (Int 255) ] in
  s !! "fileName" = Some (VStr "label.png") /\
  match_extension "label.png" = Some "png" /\
  toLowerCase "png" = Output_PNG demo /\
  (Output_PNG demo ∈ Output_values demo) /\
  s !! "hasOwnProperty" = None /\
  exists args,
    f_native_calls r = [args] /\
    a_fileName args = replace_png_suffix "label.png" /\
    indexed (encodedData (symbology demo "createStream" args)) = Some bitmap /\
    f_writes r =
      [(VStr "label.png",
        WImage (pngRender bitmap
                  (width (symbology demo "createStream" args))
                  (height (symbology demo "createStream" args))))].
Proof.
  intros s r bitmap.
  assert (Hf : s !! "fileName" = Some (VStr "label.png")) by (vm_compute; reflexivity).
  assert (He : match_extension "label.png" = Some "png") by (vm_compute; reflexivity).
  assert (Hpng : toLowerCase "png" = Output_PNG demo) by (vm_compute; reflexivity).
  pose proof (proj1 demo_output_types) as Hty.
  assert (Hfree : s !! "hasOwnProperty" = None) by (vm_compute; reflexivity).
  split; [exact Hf|]. split; [exact He|]. split; [exact Hpng|]. split; [exact Hty|].
  split; [exact Hfree|].
  destruct (createFile_png_writes_image demo demo_fs s (VStr "HELLO") _ _
              Hf He Hpng Hty Hfree) as (args & Hcalls & Hname & Hok & _).
  exists args. split; [exact Hcalls|]. split; [exact Hname|].
  assert (Hargs : code (symbology demo "createStream" args) <= 2 /\
                  indexed (encodedData (symbology demo "createStream" args)) = Some bitmap).
  { vm_compute in Hcalls. injection Hcalls as <-.
    split; [vm_compute; discriminate | vm_compute; reflexivity]. }
  destruct Hargs as [Hc Hbitmap]. split; [exact Hbitmap|].
  exact (proj1 (proj1 (Hok Hc bitmap Hbitmap) eq_refl)).
Defined.

(** X15 at work: the one file of a successful PNG request. *)
Lemma createFile_writes_only_on_success_witness :
  let r := createFile demo demo_fs (<["fileName" := VStr "label.png"]> ∅) (VStr "HELLO") in
  exists w,
    In w (f_writes r) /\
    f_writes r = [w] /\
    exists args, f_native_calls r = [args] /\
                 code (symbology demo "createStream" args) <= 2.
Proof.
  intros r.
  assert (Hw : exists w, f_writes r = [w]) by (vm_compute; eexists; reflexivity).
  destruct Hw as [w Hw].
  assert (Hin : In w (f_writes r)) by (rewrite Hw; left; reflexivity).
  destruct (createFile_writes_only_on_success demo demo_fs _ _ w Hin)
    as (Hone & _ & _ & Hargs).
  exists w. split; [exact Hin|]. split; [exact Hone | exact Hargs].
Defined.
